(** * The PostgreSQL JSON and JSONB column types

    A shallow embedding of [lib/sqlalchemy/dialects/postgresql/json.py]:
    the four index operators, the comparator of the [JSON] type
    ([astext], [_setup_getitem]), the bind and result processors, and the
    comparator of [JSONB] ([_adapt_expression] and the five membership
    predicates).

    Python raises exceptions, so every function of the module returns an
    [outcome]; Python compares operators with [is], so every operator
    object records where it was created; Python resolves a free name of a
    function body in the module's global namespace when the body runs, so
    that namespace is a value of its own. *)

From Stdlib Require Import ZArith NArith Ascii String List Bool.
From Stdlib Require Import DecimalString DecimalZ DecimalN DecimalPos DecimalFacts.
From stdpp Require Import base strings gmap pretty.
Import ListNotations.
Local Open Scope string_scope.
Local Open Scope Z_scope.
Set Warnings "-register-all".

(** ** The Python runtime the module runs on *)

Module python.

Inductive exn :=
| NameError (name : string)
| AssertionError
| AttributeError (attr : string)
| TypeError (what : string)
| Raised (what : string).

Inductive outcome (A : Type) :=
| Return (a : A)
| Raise (e : exn).

Arguments Return {A} a.
Arguments Raise {A} e.

#[global] Instance outcome_ret : MRet outcome := fun A a => Return a.

#[global] Instance outcome_bind : MBind outcome :=
  fun A B k m => match m with Return a => k a | Raise e => Raise e end.

Definition returns {A} (m : outcome A) : bool :=
  match m with Return _ => true | Raise _ => false end.

(** Python values, as far as this module looks at them.  Text is the
    string of its UTF-8 bytes.  A float is given by its [repr].
    [Instance cls elements] is an instance of any other class, named by
    its dotted path: [elements] is [Some items] when the class is a
    [collections.Sequence] ([range], [bytes], [bytearray], [deque], a
    sequence class of the user's), with the items its iteration yields,
    and [None] when the class is not a sequence. *)
Inductive object :=
| None_
| Bool_ (b : bool)
| Int_ (n : Z)
| Float_ (repr : string)
| Str (s : string)
| Tuple (items : list object)
| List_ (items : list object)
| Dict (items : list (object * object))
| Instance (cls : string) (elements : option (list object)).

(** [isinstance(o, util.string_types)] *)
Definition is_string (o : object) : bool :=
  match o with Str _ => true | _ => false end.

(** [isinstance(o, collections.Sequence)]: text, tuples, lists and the
    instances of the other sequence classes are sequences; numbers,
    [None], mappings and the instances of other classes are not. *)
Definition is_Sequence (o : object) : bool :=
  match o with
  | Str _ | Tuple _ | List_ _ | Instance _ (Some _) => true
  | _ => false
  end.

(** [for elem in o] *)
Definition iter (o : object) : outcome (list object) :=
  match o with
  | Tuple items | List_ items | Instance _ (Some items) => Return items
  | Dict items => Return (map fst items)
  | Str s => Return (map (fun c => Str (String c EmptyString)) (list_ascii_of_string s))
  | _ => Raise (TypeError "object is not iterable")
  end.

(** [sep.join(items)]: the items in order, [sep] before each but the
    first. *)
Definition join (sep : string) (items : list string) : string :=
  match items with
  | [] => ""
  | first :: rest => fold_left (fun acc item => acc +:+ sep +:+ item) rest first
  end.

(** [template % arg] for a template with one [%s] directive. *)
Fixpoint percent (template arg : string) : string :=
  match template with
  | EmptyString => EmptyString
  | String c rest =>
      match rest with
      | String d rest' =>
          if (Ascii.eqb c "%"%char && Ascii.eqb d "s"%char)%bool
          then arg +:+ rest'
          else String c (percent rest arg)
      | EmptyString => template
      end
  end.

(** A scalar key: text, or a number (a boolean is an integer). *)
Definition is_scalar (o : object) : bool :=
  match o with
  | Str _ | Int_ _ | Float_ _ | Bool_ _ => true
  | _ => false
  end.

(** [x in items], for text *)
Definition in_ (x : string) (items : list string) : bool :=
  existsb (String.eqb x) items.

#[global] Arguments in_ : simpl never.

(** [x or y], for an attribute that is [None] or a callable *)
Definition or_ {A} (x : option A) (y : A) : A :=
  match x with Some a => a | None => y end.

(** [value is None] *)
Definition is_None (o : object) : bool :=
  match o with None_ => true | _ => false end.

End python.
Import python.

(** ** [sqlalchemy.sql.operators] *)

Module operators.

(** Where an operator object was created: by one of the module-level
    assignments of json.py, or by a call made while a query is built.
    Two references are the same object ([is]) when they name the same
    module-level object. *)
Inductive site :=
| module_level (name : string)
| call_time.

Record custom_op_object := {
  created_at : site;
  opstring : string;
  precedence : Z;
  natural_self_precedent : bool
}.

(** [operators.custom_op(opstring, precedence=0,
    natural_self_precedent=False)] *)
Definition custom_op (at_ : site) (opstring : string)
    (precedence : Z) (natural_self_precedent : bool) : custom_op_object :=
  {| created_at := at_; opstring := opstring; precedence := precedence;
     natural_self_precedent := natural_self_precedent |}.

(** The operator of an expression: one of the framework's own operator
    functions ([add], [concat_op], ...) or a [custom_op]. *)
Inductive operator :=
| function_ (name : string)
| custom (c : custom_op_object).

Definition same_object (a b : custom_op_object) : bool :=
  match created_at a, created_at b with
  | module_level n, module_level m => String.eqb n m
  | _, _ => false
  end.

(** [x is c] *)
Definition is_ (x : operator) (c : custom_op_object) : bool :=
  match x with
  | custom c' => same_object c' c
  | function_ _ => false
  end.

(** [op.opstring] *)
Definition getattr_opstring (x : operator) : outcome string :=
  match x with
  | custom c => Return (opstring c)
  | function_ _ => Raise (AttributeError "opstring")
  end.

End operators.
Import operators.

(** ** json.py, lines 21-39: the four operators *)

Definition INDEX : custom_op_object :=
  operators.custom_op (module_level "INDEX") "->" 5 true.

Definition PATHIDX : custom_op_object :=
  operators.custom_op (module_level "PATHIDX") "#>" 5 true.

Definition ASTEXT : custom_op_object :=
  operators.custom_op (module_level "ASTEXT") "->>" 5 true.

Definition ASTEXT_PATHIDX : custom_op_object :=
  operators.custom_op (module_level "ASTEXT_PATHIDX") "#>>" 5 true.

(** ** The module's global namespace

    What each top-level statement of json.py binds, in order.  A free
    name of a function body is looked up here when the body runs, then
    among the builtins; a name found in neither raises [NameError]. *)

Inductive binding :=
| future_feature
| imported_module (dotted : string)
| imported_from (package name : string)
| assigned_tuple (names : list string)
| assigned_operator (c : custom_op_object)
| defined_class (name : string)
| builtin (name : string).

Definition namespace := list (string * binding).

Definition module_globals : namespace :=
  [ ("absolute_import", future_feature);
    ("collections", imported_module "collections");
    ("json", imported_module "json");
    ("ischema_names", imported_from ".base" "ischema_names");
    ("sqltypes", imported_from "..." "types");
    ("operators", imported_from "...sql" "operators");
    ("elements", imported_from "...sql" "elements");
    ("util", imported_from "..." "util");
    ("__all__", assigned_tuple ["JSON"; "JSONB"]);
    ("INDEX", assigned_operator INDEX);
    ("PATHIDX", assigned_operator PATHIDX);
    ("ASTEXT", assigned_operator ASTEXT);
    ("ASTEXT_PATHIDX", assigned_operator ASTEXT_PATHIDX);
    ("JSON", defined_class "JSON");
    ("JSONB", defined_class "JSONB") ].

(** The builtins the module's function bodies use. *)
Definition builtins : list string := ["isinstance"; "property"].

Fixpoint lookup_name (G : namespace) (name : string) : option binding :=
  match G with
  | [] => None
  | (n, b) :: G' => if String.eqb n name then Some b else lookup_name G' name
  end.

(** LOAD_GLOBAL *)
Definition load_global (G : namespace) (name : string) : outcome binding :=
  match lookup_name G name with
  | Some b => Return b
  | None =>
      if existsb (String.eqb name) builtins then Return (builtin name)
      else Raise (NameError name)
  end.

(** The global names each function body of json.py loads. *)
Definition free_names : list (string * list string) :=
  [ ("astext", ["PATHIDX"; "ASTEXT_PATHIDX"; "ASTEXT"; "sqltypes"]);
    ("_setup_getitem",
       ["isinstance"; "util"; "collections"; "PATHIDX"; "INDEX"]);
    ("bind_processor", ["json"; "util"; "isinstance"; "elements"]);
    ("result_processor", ["json"; "util"]);
    ("_adapt_expression", ["isinstance"; "custom_op"; "sqltypes"]) ].

Definition unbound (G : namespace) (names : list string) : list string :=
  filter (fun n => negb (returns (load_global G n))) names.

(** The namespace json.py would have with
    [from ...sql.operators import custom_op] among its imports. *)
Definition globals_with_custom_op : namespace :=
  ("custom_op", imported_from "...sql.operators" "custom_op") :: module_globals.

(** [isinstance(op, cls)] for an operator [op]: only a [custom_op] object
    is an instance of the class [operators.custom_op]. *)
Definition isinstance_operator (op : operator) (cls : binding) : bool :=
  match op, cls with
  | custom _, imported_from package name =>
      String.eqb package "...sql.operators" && String.eqb name "custom_op"
  | _, _ => false
  end.

(** ** Types and expression elements

    [sqltypes] and [sql.elements] are not among the sources; the
    declarations below carry what json.py reads from them. *)

Inductive plain_type := Text | Boolean | Integer | NullType.

(** Modelled from the spec: an entry of an [index_map], the "mapping
    from key-pattern to declared result type, default entry
    ANY_KEY -> SAME_TYPE" of [sqltypes.Indexable]: [SAME_TYPE], or a
    declared type. *)
Inductive index_entry :=
| SAME_TYPE
| declared (t : plain_type).

Inductive document_class := JSON | JSONB.

(** An instance of [JSON] or of its subclass [JSONB].  [index_map]
    holds the entries given for single keys; the [ANY_KEY] entry is
    [SAME_TYPE]. *)
Record document_type := {
  class_ : document_class;
  none_as_null : bool;
  index_map : gmap string index_entry
}.

Inductive sqltype :=
| Document (t : document_type)
| Plain (t : plain_type).

(** [JSON.__init__(self, none_as_null=False, index_map=None)], also run
    for [JSONB]: the instance keeps the class's [index_map] unless one is
    given. *)
Definition __init__ (cls : document_class) (none_as_null : bool)
    (index_map : option (gmap string index_entry)) : document_type :=
  {| class_ := cls; none_as_null := none_as_null;
     index_map := match index_map with Some m => m | None => ∅ end |}.

(** Modelled from the spec: the Expression of the data model,
    [{left, operator, right, result_type}], beside the column it is
    built on and a literal bound as a parameter; a column or a literal
    has no [left], [operator] or [right]. *)
Inductive element :=
| Column (name : string) (type_ : sqltype)
| BindParameter (value : object)
| BinaryExpression (left : element) (operator : operator)
    (right : element) (type_ : sqltype).

Definition type_of (e : element) : sqltype :=
  match e with
  | Column _ t => t
  | BindParameter _ => Plain NullType
  | BinaryExpression _ _ _ t => t
  end.

(** [e.operator], [e.left], [e.right] *)
Definition getattr_operator (e : element) : outcome operator :=
  match e with
  | BinaryExpression _ op _ _ => Return op
  | _ => Raise (AttributeError "operator")
  end.

Definition getattr_left (e : element) : outcome element :=
  match e with
  | BinaryExpression l _ _ _ => Return l
  | _ => Raise (AttributeError "left")
  end.

Definition getattr_right (e : element) : outcome element :=
  match e with
  | BinaryExpression _ _ r _ => Return r
  | _ => Raise (AttributeError "right")
  end.

(** A comparator is bound to one element ([self.expr]); [self.type] is
    that element's type. *)
Record Comparator := { expr : element }.

Definition comparator (e : element) : Comparator := {| expr := e |}.

(** The second operand of an operation: a Python value, or an element. *)
Inductive operand :=
| literal (value : object)
| clause (e : element).

(** What crosses the boundary to the database driver: text, or bytes
    in a declared encoding. *)
Inductive payload :=
| text (s : string)
| bytes (b : string).

(** What the module takes from the rest of the library and from the
    interpreter, without looking inside. *)
Class Externals := {
  (** [sqltypes.Concatenable.Comparator._adapt_expression] *)
  Concatenable_adapt_expression :
    Comparator -> operator -> Comparator -> operator * sqltype;
  (** [_adapt_expression] of a comparator that does not override it *)
  inherited_adapt_expression :
    Comparator -> operator -> Comparator -> operator * sqltype;
  (** [str(o)] of a float, of a container or of an instance *)
  str_of_compound : object -> string;
  (** [util.py2k] *)
  py2k : bool;
  (** [json.dumps] and [json.loads] *)
  json_dumps : object -> outcome string;
  json_loads : payload -> outcome object;
  (** [s.encode(encoding)] and [value.decode(encoding)] *)
  str_encode : string -> string -> outcome string;
  bytes_decode : payload -> string -> outcome string
}.

(** The two attributes json.py reads from a dialect, and its
    encoding. *)
Record Dialect := {
  _json_serializer : option (object -> outcome string);
  _json_deserializer : option (payload -> outcome object);
  encoding : string
}.

(** [util.text_type(o)] *)
Definition text_type `{Externals} (o : object) : string :=
  match o with
  | None_ => "None"
  | Bool_ true => "True"
  | Bool_ false => "False"
  | Int_ n => pretty n
  | Str s => s
  | _ => str_of_compound o
  end.

(** [isinstance(value, elements.Null)] *)
Definition is_Null (o : object) : bool :=
  match o with
  | Instance cls _ => String.eqb cls "sqlalchemy.sql.elements.Null"
  | _ => false
  end.

(** ** json.py: the function bodies, run in a namespace [G] *)

Section module_body.
Context `{ext : Externals}.
Variable G : namespace.

(** json.py, lines 294-303: [JSONB.comparator_factory._adapt_expression] *)
Definition _adapt_expression (self : Comparator) (op : operator)
    (other_comparator : Comparator) : outcome (operator * sqltype) :=
  _ ← load_global G "isinstance";
  custom_op ← load_global G "custom_op";
  special ←
    (if isinstance_operator op custom_op then
       opstring ← getattr_opstring op;
       if in_ opstring ["?"; "?&"; "?|"; "@>"; "<@"] then
         mret (Some (op, Plain Boolean))
       else if String.eqb opstring "->" then
         mret (Some (op, Plain Text))
       else mret None
     else mret None);
  match special with
  | Some r => mret r
  | None => mret (Concatenable_adapt_expression self op other_comparator)
  end.

(** The comparator of an element is made by its type's
    [comparator_factory]: the one of [JSONB] overrides
    [_adapt_expression], every other inherits it. *)
Definition adapt_expression (self : Comparator) (op : operator)
    (other_comparator : Comparator) : outcome (operator * sqltype) :=
  match type_of (expr self) with
  | Document t =>
      match class_ t with
      | JSONB => _adapt_expression self op other_comparator
      | JSON => Return (inherited_adapt_expression self op other_comparator)
      end
  | Plain _ => Return (inherited_adapt_expression self op other_comparator)
  end.

(** A Python value given as operand is bound as a parameter. *)
Definition _check_literal (other : operand) : element :=
  match other with
  | literal v => BindParameter v
  | clause e => e
  end.

(** Modelled from the spec: [left.operate(op, other, result_type=None)]
    of the expression framework, which is not among the sources.  It
    makes the Expression [{left, operator, right, result_type}]; a result
    type given by the caller is taken as it is, otherwise the adaptation
    hook of the left operand's comparator, "given an operator and the
    type of the other operand", returns "the operator to actually use and
    its declared result type". *)
Definition operate (left : element) (op : operator) (other : operand)
    (result_type : option sqltype) : outcome element :=
  let right := _check_literal other in
  match result_type with
  | Some t => Return (BinaryExpression left op right t)
  | None =>
      '(op', t) ← adapt_expression (comparator left) op (comparator right);
      Return (BinaryExpression left op' right t)
  end.

(** Modelled from the spec: [expr.op(opstring)(other)], the 'generic
    "named binary operator" constructor and an "apply named operator to
    operand" call' of the framework. *)
Definition op_ (e : element) (opstring : string) (other : operand)
    : outcome element :=
  operate e (custom (operators.custom_op call_time opstring 0 false)) other None.

(** Modelled from the spec: [Indexable.Comparator._type_for_index],
    "result_type = index_map.lookup(k) else SAME_TYPE", where SAME_TYPE
    is "the column's own document type". *)
Definition _type_for_index (self : Comparator) (index : string) : sqltype :=
  match type_of (expr self) with
  | Document t =>
      match index_map t !! index with
      | Some (declared d) => Plain d
      | Some SAME_TYPE | None => Document t
      end
  | Plain d => Plain d
  end.

(** json.py, lines 145-166: [JSON.Comparator.astext] *)
Definition astext (self : Comparator) : outcome element :=
  against ← getattr_operator (expr self);
  let against := if is_ against PATHIDX then ASTEXT_PATHIDX else ASTEXT in
  left ← getattr_left (expr self);
  right ← getattr_right (expr self);
  operate left (custom against) (clause right) (Some (Plain Text)).

(** json.py, lines 168-177: [JSON.Comparator._setup_getitem].  The first
    branch of the [match] is the [else] of the source ([index] is text);
    the second is its [if not isinstance(index, util.string_types)]. *)
Definition _setup_getitem (self : Comparator) (index : object)
    : outcome (custom_op_object * string * sqltype) :=
  '(operator, index) ←
    match index with
    | Str s => mret (INDEX, s)
    | _ =>
        if is_Sequence index then
          elems ← iter index;
          mret (PATHIDX, percent "{%s}" (join ", " (map text_type elems)))
        else Raise AssertionError
    end;
  mret (operator, index, _type_for_index self index).

(** Modelled from the spec: [Indexable.Comparator.__getitem__], the
    index operation [column[key]]: the Expression made of what
    [_setup_getitem] resolves, "(operator, rendered index literal, result
    type)". *)
Definition __getitem__ (self : Comparator) (index : object) : outcome element :=
  '(operator, adjusted_right_expr, result_type) ← _setup_getitem self index;
  operate (expr self) (custom operator) (literal (Str adjusted_right_expr))
    (Some result_type).

(** json.py, lines 181-199: [JSON.bind_processor] *)
Definition bind_processor (self : document_type) (dialect : Dialect)
    : object -> outcome (option payload) :=
  let json_serializer := or_ (_json_serializer dialect) json_dumps in
  if py2k then
    let encoding := encoding dialect in
    fun value =>
      if is_Null value || (is_None value && none_as_null self) then
        Return None
      else
        s ← json_serializer value;
        b ← str_encode s encoding;
        Return (Some (bytes b))
  else
    fun value =>
      if is_Null value || (is_None value && none_as_null self) then
        Return None
      else
        s ← json_serializer value;
        Return (Some (text s)).

(** json.py, lines 201-215: [JSON.result_processor] *)
Definition result_processor (self : document_type) (dialect : Dialect)
    (coltype : object) : option payload -> outcome object :=
  let json_deserializer := or_ (_json_deserializer dialect) json_loads in
  if py2k then
    let encoding := encoding dialect in
    fun value =>
      match value with
      | None => Return None_
      | Some v => t ← bytes_decode v encoding; json_deserializer (text t)
      end
  else
    fun value =>
      match value with
      | None => Return None_
      | Some v => json_deserializer v
      end.

(** json.py, lines 305-331: the predicates of [JSONB.comparator_factory] *)
Definition has_key (self : Comparator) (other : operand) : outcome element :=
  op_ (expr self) "?" other.

Definition has_all (self : Comparator) (other : operand) : outcome element :=
  op_ (expr self) "?&" other.

Definition has_any (self : Comparator) (other : operand) : outcome element :=
  op_ (expr self) "?|" other.

Definition contains (self : Comparator) (other : operand) : outcome element :=
  op_ (expr self) "@>" other.

Definition contained_by (self : Comparator) (other : operand) : outcome element :=
  op_ (expr self) "<@" other.

End module_body.

(** What the bind processor does with a value it does not persist as
    NULL: serialize, and encode when the driver wants bytes. *)
Definition serialized `{Externals} (dialect : Dialect) (value : object) : outcome (option payload) :=
  let json_serializer :=
    match _json_serializer dialect with Some f => f | None => json_dumps end in
  s ← json_serializer value;
  if py2k then b ← str_encode s (encoding dialect); Return (Some (bytes b))
  else Return (Some (text s)).

(** json.py, lines 218 and 333: importing the module enters the two
    classes, by name, in the dialect's table of native type names. *)
Definition register (ischema_names : gmap string string) : gmap string string :=
  <["jsonb" := "JSONB"]> (<["json" := "JSON"]> ischema_names).

(** ** Python's [json], with the settings [json.dumps] and [json.loads]
    have when called with one argument

    The encoder writes ASCII only ([ensure_ascii]), separates items
    by [", "] and keys from values by [": "], and writes a tuple as it
    writes a list; the decoder is the strict one.  The library belongs
    to the interpreter, not to the repository: the definitions follow
    its encoder and its scanner.  Text is held as the bytes of its
    UTF-8 encoding, a float as its [repr]. *)

Module json.

Definition quote : ascii := "034"%char.
Definition backslash : ascii := "092"%char.

(** *** Text as code points *)

Definition is_continuation (n : N) : bool := ((0x80 <=? n) && (n <? 0xC0))%N.

(** A Unicode scalar value: a code point that is not a surrogate. *)
Definition is_scalar_value (cp : N) : bool :=
  ((cp <? 0xD800) || ((0xDFFF <? cp) && (cp <? 0x110000)))%N.

Definition utf8_encode1 (cp : N) : string :=
  (if cp <? 0x80 then String (ascii_of_N cp) ""
   else if cp <? 0x800 then
     String (ascii_of_N (0xC0 + cp / 64))
       (String (ascii_of_N (0x80 + cp mod 64)) "")
   else if cp <? 0x10000 then
     String (ascii_of_N (0xE0 + cp / 4096))
       (String (ascii_of_N (0x80 + (cp / 64) mod 64))
          (String (ascii_of_N (0x80 + cp mod 64)) ""))
   else
     String (ascii_of_N (0xF0 + cp / 262144))
       (String (ascii_of_N (0x80 + (cp / 4096) mod 64))
          (String (ascii_of_N (0x80 + (cp / 64) mod 64))
             (String (ascii_of_N (0x80 + cp mod 64)) ""))))%N.

Fixpoint utf8_encode (cps : list N) : string :=
  match cps with
  | [] => ""
  | cp :: cps => utf8_encode1 cp +:+ utf8_encode cps
  end.

(** The code points of a text; [None] for bytes that are not the UTF-8
    of any text (a stray continuation byte, an overlong form, a
    surrogate, a code point past U+10FFFF, a truncated sequence). *)
Fixpoint utf8_decode (s : string) : option (list N) :=
  match s with
  | "" => Some []
  | String b0 s1 =>
      let n0 := N_of_ascii b0 in
      if (n0 <? 0x80)%N then cons n0 <$> utf8_decode s1
      else if (n0 <? 0xC2)%N then None
      else if (n0 <? 0xE0)%N then
        match s1 with
        | String b1 s2 =>
            let n1 := N_of_ascii b1 in
            if is_continuation n1 then
              cons ((n0 - 0xC0) * 64 + (n1 - 0x80))%N <$> utf8_decode s2
            else None
        | _ => None
        end
      else if (n0 <? 0xF0)%N then
        match s1 with
        | String b1 (String b2 s3) =>
            let n1 := N_of_ascii b1 in
            let n2 := N_of_ascii b2 in
            let cp := ((n0 - 0xE0) * 4096 + (n1 - 0x80) * 64 + (n2 - 0x80))%N in
            if is_continuation n1 && is_continuation n2
               && (0x800 <=? cp)%N && is_scalar_value cp
            then cons cp <$> utf8_decode s3
            else None
        | _ => None
        end
      else if (n0 <? 0xF5)%N then
        match s1 with
        | String b1 (String b2 (String b3 s4)) =>
            let n1 := N_of_ascii b1 in
            let n2 := N_of_ascii b2 in
            let n3 := N_of_ascii b3 in
            let cp := ((n0 - 0xF0) * 262144 + (n1 - 0x80) * 4096
                       + (n2 - 0x80) * 64 + (n3 - 0x80))%N in
            if is_continuation n1 && is_continuation n2 && is_continuation n3
               && (0x10000 <=? cp)%N && (cp <? 0x110000)%N
            then cons cp <$> utf8_decode s4
            else None
        | _ => None
        end
      else None
  end.

(** *** The encoder *)

Definition hex_digit (d : N) : ascii :=
  match String.get (N.to_nat d) "0123456789abcdef" with
  | Some c => c
  | None => "0"%char
  end.

(** ['{0:04x}'.format(n)] *)
Definition hex4 (n : N) : string :=
  (String (hex_digit ((n / 4096) mod 16))
     (String (hex_digit ((n / 256) mod 16))
        (String (hex_digit ((n / 16) mod 16))
           (String (hex_digit (n mod 16)) ""))))%N.

(** What [encode_basestring_ascii] writes for one code point. *)
Definition escape (cp : N) : string :=
  (if cp =? 34 then String backslash (String quote "")
   else if cp =? 92 then String backslash (String backslash "")
   else if cp =? 10 then String backslash "n"
   else if cp =? 13 then String backslash "r"
   else if cp =? 9 then String backslash "t"
   else if cp =? 8 then String backslash "b"
   else if cp =? 12 then String backslash "f"
   else if (32 <=? cp) && (cp <=? 126) then String (ascii_of_N cp) ""
   else if cp <? 0x10000 then String backslash (String "u" (hex4 cp))
   else
     let v := cp - 0x10000 in
     String backslash (String "u" (hex4 (0xD800 + v / 1024)))
     +:+ String backslash (String "u" (hex4 (0xDC00 + v mod 1024))))%N.

Fixpoint escape_all (cps : list N) : string :=
  match cps with
  | [] => ""
  | cp :: cps => escape cp +:+ escape_all cps
  end.

(** [encode_basestring_ascii(s)] *)
Definition encode_basestring_ascii (s : string) : outcome string :=
  match utf8_decode s with
  | Some cps => Return (String quote (escape_all cps +:+ String quote ""))
  | None => Raise (Raised "UnicodeDecodeError")
  end.

(** [int.__repr__] *)
Definition int_repr (n : Z) : string := NilZero.string_of_int (Z.to_int n).

(** [float.__repr__], and the names the encoder has for the three
    values that are not numbers of JSON. *)
Definition float_text (repr : string) : string :=
  if String.eqb repr "nan" then "NaN"
  else if String.eqb repr "inf" then "Infinity"
  else if String.eqb repr "-inf" then "-Infinity"
  else repr.

(** The text of a key of a mapping: text as it is, a number, a boolean
    or [None] as the encoder writes it; any other key is refused. *)
Definition key_text (k : object) : outcome string :=
  match k with
  | Str s => Return s
  | Float_ r => Return (float_text r)
  | Bool_ true => Return "true"
  | Bool_ false => Return "false"
  | None_ => Return "null"
  | Int_ n => Return (int_repr n)
  | _ => Raise (TypeError "keys must be a string")
  end.

(** [json.dumps(o)] *)
Fixpoint dumps (o : object) : outcome string :=
  match o with
  | None_ => Return "null"
  | Bool_ true => Return "true"
  | Bool_ false => Return "false"
  | Int_ n => Return (int_repr n)
  | Float_ r => Return (float_text r)
  | Str s => encode_basestring_ascii s
  | Tuple items | List_ items =>
      chunks ←
        (fix each (l : list object) : outcome (list string) :=
           match l with
           | [] => Return []
           | x :: l => c ← dumps x; cs ← each l; Return (c :: cs)
           end) items;
      Return ("[" +:+ join ", " chunks +:+ "]")
  | Dict items =>
      chunks ←
        (fix each (l : list (object * object)) : outcome (list string) :=
           match l with
           | [] => Return []
           | (k, v) :: l =>
               kt ← key_text k;
               ks ← encode_basestring_ascii kt;
               c ← dumps v;
               cs ← each l;
               Return ((ks +:+ ": " +:+ c) :: cs)
           end) items;
      Return ("{" +:+ join ", " chunks +:+ "}")
  | Instance _ _ => Raise (TypeError "is not JSON serializable")
  end.

(** The loops of the encoder, on their own: [f] on each item from left
    to right, up to the first exception. *)
Fixpoint each {A B : Type} (f : A -> outcome B) (l : list A) : outcome (list B) :=
  match l with
  | [] => Return []
  | x :: l => y ← f x; ys ← each f l; Return (y :: ys)
  end.

(** What the encoder writes for one item of a mapping. *)
Definition dumps_item (item : object * object) : outcome string :=
  let '(k, v) := item in
  kt ← key_text k;
  ks ← encode_basestring_ascii kt;
  c ← dumps v;
  Return (ks +:+ ": " +:+ c).

(** *** The decoder *)

Definition is_whitespace (c : ascii) : bool :=
  Ascii.eqb c " " || Ascii.eqb c "009" || Ascii.eqb c "010" || Ascii.eqb c "013".

Fixpoint skip_whitespace (s : string) : string :=
  match s with
  | String c r => if is_whitespace c then skip_whitespace r else s
  | "" => ""
  end.

Definition is_digit (c : ascii) : bool :=
  let n := N_of_ascii c in ((48 <=? n) && (n <=? 57))%N.

Definition unhex (c : ascii) : option N :=
  let n := N_of_ascii c in
  (if (48 <=? n) && (n <=? 57) then Some (n - 48)
   else if (97 <=? n) && (n <=? 102) then Some (n - 87)
   else if (65 <=? n) && (n <=? 70) then Some (n - 55)
   else None)%N.

Definition unhex4 (h1 h2 h3 h4 : ascii) : option N :=
  d1 ← unhex h1; d2 ← unhex h2; d3 ← unhex h3; d4 ← unhex h4;
  Some (((d1 * 16 + d2) * 16 + d3) * 16 + d4)%N.

(** The character a backslash escape other than [\u] stands for. *)
Definition unescape (e : ascii) : option ascii :=
  if Ascii.eqb e quote then Some quote
  else if Ascii.eqb e backslash then Some backslash
  else if Ascii.eqb e "/" then Some "/"%char
  else if Ascii.eqb e "b" then Some "008"%char
  else if Ascii.eqb e "f" then Some "012"%char
  else if Ascii.eqb e "n" then Some "010"%char
  else if Ascii.eqb e "r" then Some "013"%char
  else if Ascii.eqb e "t" then Some "009"%char
  else None.

Definition is_high_surrogate (n : N) : bool := ((0xD800 <=? n) && (n <=? 0xDBFF))%N.
Definition is_low_surrogate (n : N) : bool := ((0xDC00 <=? n) && (n <=? 0xDFFF))%N.

Definition ValueError (what : string) : exn := Raised ("ValueError: " +:+ what).

(** [scanstring(s, end)] with [end] just past the opening quote: the
    text up to the closing quote, and what follows it.  A surrogate
    that is not half of a pair has no UTF-8 and is outside the model. *)
Fixpoint scanstring (s : string) : outcome (string * string) :=
  match s with
  | "" => Raise (ValueError "Unterminated string")
  | String c r =>
      if Ascii.eqb c quote then Return ("", r)
      else if Ascii.eqb c backslash then
        match r with
        | "" => Raise (ValueError "Unterminated string")
        | String e r1 =>
            if Ascii.eqb e "u" then
              match r1 with
              | String h1 (String h2 (String h3 (String h4 r2))) =>
                  match unhex4 h1 h2 h3 h4 with
                  | None => Raise (ValueError "Invalid \uXXXX escape")
                  | Some uni =>
                      if is_high_surrogate uni then
                        match r2 with
                        | String b (String u (String l1 (String l2
                            (String l3 (String l4 r3))))) =>
                            if Ascii.eqb b backslash && Ascii.eqb u "u" then
                              match unhex4 l1 l2 l3 l4 with
                              | None => Raise (ValueError "Invalid \uXXXX escape")
                              | Some uni2 =>
                                  if is_low_surrogate uni2 then
                                    '(tail, rest) ← scanstring r3;
                                    Return
                                      (utf8_encode1
                                         (0x10000 + (uni - 0xD800) * 1024
                                          + (uni2 - 0xDC00))%N +:+ tail,
                                       rest)
                                  else Raise (Raised "lone surrogate")
                              end
                            else Raise (Raised "lone surrogate")
                        | _ => Raise (Raised "lone surrogate")
                        end
                      else if is_low_surrogate uni then
                        Raise (Raised "lone surrogate")
                      else
                        '(tail, rest) ← scanstring r2;
                        Return (utf8_encode1 uni +:+ tail, rest)
                  end
              | _ => Raise (ValueError "Invalid \uXXXX escape")
              end
            else
              match unescape e with
              | Some ch =>
                  '(tail, rest) ← scanstring r1; Return (String ch tail, rest)
              | None => Raise (ValueError "Invalid \escape")
              end
        end
      else if (N_of_ascii c <? 32)%N then
        Raise (ValueError "Invalid control character")
      else '(tail, rest) ← scanstring r; Return (String c tail, rest)
  end.

(** The longest run of digits at the head of [s], and the rest. *)
Fixpoint span_digits (s : string) : string * string :=
  match s with
  | String c r =>
      if is_digit c then
        let '(digits, rest) := span_digits r in (String c digits, rest)
      else ("", s)
  | "" => ("", "")
  end.

(** [NUMBER_RE.match] matches an optional minus sign and either [0] or
    a digit other than [0] with the digits after it; then, optionally, a
    point and digits; then, optionally, [e] or [E], an optional sign
    and digits.  Each of the three groups comes with what follows it. *)
Definition match_integer (s : string) : option (string * string) :=
  let '(sign, s1) :=
    match s with
    | String c r => if Ascii.eqb c "-" then ("-", r) else ("", s)
    | "" => ("", s)
    end in
  match s1 with
  | "" => None
  | String c r =>
      if negb (is_digit c) then None
      else if Ascii.eqb c "0" then Some (sign +:+ "0", r)
      else let '(digits, after) := span_digits r in
           Some (sign +:+ String c digits, after)
  end.

Definition match_frac (s : string) : string * string :=
  match s with
  | String d r =>
      if Ascii.eqb d "." then
        let '(digits, after) := span_digits r in
        match digits with
        | "" => ("", s)
        | _ => (String "." digits, after)
        end
      else ("", s)
  | "" => ("", s)
  end.

Definition match_exp (s : string) : string * string :=
  match s with
  | String e r =>
      if Ascii.eqb e "e" || Ascii.eqb e "E" then
        let '(sign, r') :=
          match r with
          | String g r' =>
              if Ascii.eqb g "+" || Ascii.eqb g "-"
              then (String g "", r') else ("", r)
          | "" => ("", r)
          end in
        let '(digits, after) := span_digits r' in
        match digits with
        | "" => ("", s)
        | _ => (String e (sign +:+ digits), after)
        end
      else ("", s)
  | "" => ("", s)
  end.

Definition match_number (s : string) : option (string * string * string * string) :=
  match match_integer s with
  | None => None
  | Some (integer, after) =>
      let '(frac, after) := match_frac after in
      let '(exp, after) := match_exp after in
      Some (integer, frac, exp, after)
  end.

(** [int(text)] for the text of an integer *)
Definition int_of_text (s : string) : Z :=
  match NilZero.int_of_string s with
  | Some d => Z.of_int d
  | None => 0
  end.

(** [s[idx:idx + len(word)] == word]: what follows the word. *)
Fixpoint after_word (word s : string) : option string :=
  match word with
  | "" => Some s
  | String w word' =>
      match s with
      | String c r => if Ascii.eqb c w then after_word word' r else None
      | "" => None
      end
  end.

(** [dict.__setitem__] on the pairs of a mapping, in insertion order *)
Fixpoint dict_set (k : string) (v : object) (d : list (object * object))
    : list (object * object) :=
  match d with
  | [] => [(Str k, v)]
  | (k', v') :: d' =>
      match k' with
      | Str s => if String.eqb s k then (k', v) :: d'
                 else (k', v') :: dict_set k v d'
      | _ => (k', v') :: dict_set k v d'
      end
  end.

(** [dict(pairs)] *)
Definition dict_of_pairs (pairs : list (string * object)) : list (object * object) :=
  fold_left (fun d '(k, v) => dict_set k v d) pairs [].

Section decoder.

(** [repr(float(literal))]: the float arithmetic of the interpreter *)
Variable float_repr : string -> string.

(** [scan_once(s, idx)] and the loops of [JSONArray] and [JSONObject],
    each on what is left of the document; [fuel] bounds the depth of
    the calls and the number of items. *)
Fixpoint scan_once (fuel : nat) (s : string) : outcome (object * string) :=
  match fuel with
  | O => Raise (Raised "RecursionError")
  | S fuel =>
      match s with
      | "" => Raise (ValueError "Expecting value")
      | String c r =>
          if Ascii.eqb c quote then
            '(t, rest) ← scanstring r; Return (Str t, rest)
          else if Ascii.eqb c "{" then
            match skip_whitespace r with
            | "" => Raise (ValueError "Expecting property name")
            | String c' r' =>
                if Ascii.eqb c' "}" then Return (Dict [], r')
                else if Ascii.eqb c' quote then
                  '(pairs, rest) ← object_loop fuel r';
                  Return (Dict (dict_of_pairs pairs), rest)
                else Raise (ValueError "Expecting property name")
            end
          else if Ascii.eqb c "[" then
            match skip_whitespace r with
            | "" => Raise (ValueError "Expecting value")
            | String c' r' =>
                if Ascii.eqb c' "]" then Return (List_ [], r')
                else
                  '(items, rest) ← array_loop fuel (String c' r');
                  Return (List_ items, rest)
            end
          else
            match after_word "null" s, after_word "true" s, after_word "false" s with
            | Some rest, _, _ => Return (None_, rest)
            | _, Some rest, _ => Return (Bool_ true, rest)
            | _, _, Some rest => Return (Bool_ false, rest)
            | None, None, None =>
                match match_number s with
                | Some (integer, frac, exp, rest) =>
                    match frac, exp with
                    | "", "" => Return (Int_ (int_of_text integer), rest)
                    | _, _ =>
                        Return (Float_ (float_repr (integer +:+ frac +:+ exp)), rest)
                    end
                | None =>
                    match after_word "NaN" s, after_word "Infinity" s,
                          after_word "-Infinity" s with
                    | Some rest, _, _ => Return (Float_ "nan", rest)
                    | _, Some rest, _ => Return (Float_ "inf", rest)
                    | _, _, Some rest => Return (Float_ "-inf", rest)
                    | None, None, None => Raise (ValueError "Expecting value")
                    end
                end
            end
      end
  end
with array_loop (fuel : nat) (s : string) : outcome (list object * string) :=
  match fuel with
  | O => Raise (Raised "RecursionError")
  | S fuel =>
      '(value, r) ← scan_once fuel s;
      match skip_whitespace r with
      | "" => Raise (ValueError "Expecting ',' delimiter")
      | String c r' =>
          if Ascii.eqb c "]" then Return ([value], r')
          else if Ascii.eqb c "," then
            '(values, rest) ← array_loop fuel (skip_whitespace r');
            Return (value :: values, rest)
          else Raise (ValueError "Expecting ',' delimiter")
      end
  end
with object_loop (fuel : nat) (s : string) : outcome (list (string * object) * string) :=
  match fuel with
  | O => Raise (Raised "RecursionError")
  | S fuel =>
      '(key, r) ← scanstring s;
      match skip_whitespace r with
      | "" => Raise (ValueError "Expecting ':' delimiter")
      | String c r' =>
          if negb (Ascii.eqb c ":") then
            Raise (ValueError "Expecting ':' delimiter")
          else
            '(value, r'') ← scan_once fuel (skip_whitespace r');
            match skip_whitespace r'' with
            | "" => Raise (ValueError "Expecting ',' delimiter")
            | String d r3 =>
                if Ascii.eqb d "}" then Return ([(key, value)], r3)
                else if Ascii.eqb d "," then
                  match skip_whitespace r3 with
                  | "" => Raise (ValueError "Expecting property name")
                  | String q r4 =>
                      if Ascii.eqb q quote then
                        '(pairs, rest) ← object_loop fuel r4;
                        Return ((key, value) :: pairs, rest)
                      else Raise (ValueError "Expecting property name")
                  end
                else Raise (ValueError "Expecting ',' delimiter")
            end
      end
  end.

(** [JSONDecoder.decode(s)]: one value, with nothing but white space
    around it. *)
Definition decode (s : string) : outcome object :=
  '(obj, rest) ← scan_once (S (String.length s)) (skip_whitespace s);
  match skip_whitespace rest with
  | "" => Return obj
  | _ => Raise (ValueError "Extra data")
  end.

(** [json.loads(s)], of text or of its bytes *)
Definition loads (p : payload) : outcome object :=
  match p with
  | text s | bytes s => decode s
  end.

End decoder.

(** *** The values the codec gives back as they were *)

(** What may follow a number in a document without becoming part of
    it: anything but a digit, a point, an exponent mark and a sign. *)
Definition delimits (rest : string) : bool :=
  match rest with
  | "" => true
  | String c _ =>
      negb (is_digit c || Ascii.eqb c "." || Ascii.eqb c "e" || Ascii.eqb c "E"
            || Ascii.eqb c "+" || Ascii.eqb c "-")
  end.

(** The [repr] of a finite float: a number of JSON with a fraction or
    an exponent, nothing after it. *)
Definition is_float_literal (r : string) : bool :=
  match match_number r with
  | Some (integer, frac, exp, "") =>
      negb (String.eqb frac "" && String.eqb exp "")
      && String.eqb (integer +:+ frac +:+ exp) r
  | _ => false
  end.

(** [k in d], for the pairs of a mapping *)
Definition key_in (k : string) (d : list (object * object)) : bool :=
  existsb (fun '(k', _) =>
             match k' with Str s => String.eqb s k | _ => false end) d.

(** The pairs the decoder reads from the text of a mapping whose keys
    are text. *)
Definition pairs_of (items : list (object * object)) : list (string * object) :=
  map (fun '(k, v) => (match k with Str s => s | _ => "" end, v)) items.

(** The values of JSON as Python has them: [None], booleans, integers,
    floats other than nan (the [repr] of a finite one, read as a float,
    is the same float), text, lists of such values, and mappings from
    text, each key once, to such values. *)
Fixpoint native (float_repr : string -> string) (o : object) : bool :=
  match o with
  | None_ | Bool_ _ | Int_ _ => true
  | Float_ r =>
      String.eqb r "inf" || String.eqb r "-inf"
      || (is_float_literal r && String.eqb (float_repr r) r)
  | Str s => match utf8_decode s with Some _ => true | None => false end
  | List_ items =>
      (fix all (l : list object) : bool :=
         match l with
         | [] => true
         | x :: l => native float_repr x && all l
         end) items
  | Dict items =>
      (fix all (l : list (object * object)) : bool :=
         match l with
         | [] => true
         | (k, v) :: l =>
             match k with
             | Str s =>
                 match utf8_decode s with Some _ => true | None => false end
                 && negb (key_in s l)
             | _ => false
             end
             && native float_repr v && all l
         end) items
  | Tuple _ | Instance _ _ => false
  end.

(** [native] on the items of a mapping *)
Fixpoint native_items (float_repr : string -> string)
    (items : list (object * object)) : bool :=
  match items with
  | [] => true
  | (k, v) :: l =>
      match k with
      | Str s =>
          match utf8_decode s with Some _ => true | None => false end
          && negb (key_in s l)
      | _ => false
      end
      && native float_repr v && native_items float_repr l
  end.

(** What the three parts of the decoder do, with a given amount of
    fuel, on what the encoder wrote for native values. *)
Definition reads_back (float_repr : string -> string) (fuel : nat) : Prop :=
  (forall v t rest,
     native float_repr v = true -> dumps v = Return t ->
     (String.length t < fuel)%nat -> delimits rest = true ->
     scan_once float_repr fuel (t +:+ rest) = Return (v, rest)) /\
  (forall items chunks rest,
     items <> [] ->
     forallb (native float_repr) items = true ->
     each dumps items = Return chunks ->
     (String.length (String.concat ", " chunks) + 1 < fuel)%nat ->
     array_loop float_repr fuel
       (String.concat ", " chunks +:+ String "]" rest) =
     Return (items, rest)) /\
  (forall items chunks body rest,
     items <> [] ->
     native_items float_repr items = true ->
     each dumps_item items = Return chunks ->
     String.concat ", " chunks = String quote body ->
     (String.length body + 2 < fuel)%nat ->
     object_loop float_repr fuel (body +:+ String "}" rest) =
     Return (pairs_of items, rest)).

End json.

(** ** Concrete inputs

    The column of the docstrings, [Column('data', JSON)] and
    [Column('data', JSONB)], a dialect without overrides, and stand-ins
    for the external functions on which the definitions can be run: the
    inherited adaptation rules keep the operator and give the receiver's
    type, and the JSON encoder knows [None], the booleans and the
    integers. *)

Definition data_column : element :=
  Column "data" (Document (__init__ JSON false None)).

Definition data_column_b : element :=
  Column "data" (Document (__init__ JSONB false None)).

Definition plain_dialect : Dialect :=
  {| _json_serializer := None; _json_deserializer := None; encoding := "utf-8" |}.

Definition stand_in : Externals := {|
  Concatenable_adapt_expression := fun self op _ => (op, type_of (expr self));
  inherited_adapt_expression := fun self op _ => (op, type_of (expr self));
  str_of_compound := fun _ => "<object>";
  py2k := false;
  json_dumps := fun o =>
    match o with
    | None_ => Return "null"
    | Bool_ true => Return "true"
    | Bool_ false => Return "false"
    | Int_ n => Return (pretty n)
    | _ => Raise (TypeError "is not JSON serializable")
    end;
  json_loads := fun p =>
    match p with
    | text "null" | bytes "null" => Return None_
    | text "true" | bytes "true" => Return (Bool_ true)
    | text "false" | bytes "false" => Return (Bool_ false)
    | _ => Raise (Raised "ValueError")
    end;
  str_encode := fun s _ => Return s;
  bytes_decode := fun p _ => match p with text s | bytes s => Return s end
|}.

(** The same stand-ins for a driver that wants bytes ([util.py2k]). *)
Definition stand_in_py2k : Externals := {|
  Concatenable_adapt_expression := fun self op _ => (op, type_of (expr self));
  inherited_adapt_expression := fun self op _ => (op, type_of (expr self));
  str_of_compound := fun _ => "<object>";
  py2k := true;
  json_dumps := @json_dumps stand_in;
  json_loads := @json_loads stand_in;
  str_encode := fun s _ => Return s;
  bytes_decode := fun p _ => match p with text s | bytes s => Return s end
|}.

(** The stand-ins with the interpreter's [json] for the codec, for a
    driver that takes text and for one that wants bytes
    ([wants_bytes]); the floats of the examples are written the way
    [repr] writes them, so that [repr(float(s))] is [s]. *)
Definition with_json (wants_bytes : bool) : Externals := {|
  Concatenable_adapt_expression := @Concatenable_adapt_expression stand_in;
  inherited_adapt_expression := @inherited_adapt_expression stand_in;
  str_of_compound := @str_of_compound stand_in;
  py2k := wants_bytes;
  json_dumps := json.dumps;
  json_loads := json.loads (fun literal => literal);
  str_encode := fun s _ => Return s;
  bytes_decode := fun p _ => match p with text s | bytes s => Return s end
|}.

(** Modelled from the spec: chained indexing, [col[k1][k2]...[kn]]
    ("chained indexing stays chainable"): each index operation is the
    [__getitem__] of the comparator of the expression made before it. *)
Fixpoint getitems `{Externals} (G : namespace) (e : element) (keys : list object)
    : outcome element :=
  match keys with
  | [] => Return e
  | k :: rest => e' ← __getitem__ G (comparator e) k; getitems G e' rest
  end.

(** * Properties *)

(** ** Text formatting *)

Lemma append_assoc (a b c : string) : (a +:+ b) +:+ c = a +:+ (b +:+ c).
Proof.
  induction a as [|ch a IH]; [reflexivity|].
  change (String ch ((a +:+ b) +:+ c) = String ch (a +:+ (b +:+ c))).
  now f_equal.
Qed.

Lemma append_empty_r (a : string) : a +:+ "" = a.
Proof.
  induction a as [|ch a IH]; [reflexivity|].
  change (String ch (a +:+ "") = String ch a).
  now f_equal.
Qed.

Lemma fold_join (sep : string) (rest : list string) (acc : string) :
  fold_left (fun acc item => acc +:+ sep +:+ item) rest acc =
  acc +:+ fold_right (fun item tail => sep +:+ item +:+ tail) "" rest.
Proof.
  revert acc. induction rest as [|x rest IH]; intros acc; cbn [fold_left fold_right].
  - now rewrite append_empty_r.
  - rewrite IH. now rewrite !append_assoc.
Qed.

Lemma concat_cons (sep x : string) (rest : list string) :
  String.concat sep (x :: rest) =
  x +:+ fold_right (fun item tail => sep +:+ item +:+ tail) "" rest.
Proof.
  revert x. induction rest as [|y rest IH]; intros x.
  - cbn [String.concat fold_right]. now rewrite append_empty_r.
  - change (String.concat sep (x :: y :: rest))
      with (x +:+ sep +:+ String.concat sep (y :: rest)).
    rewrite IH. reflexivity.
Qed.

(** Python's [join] is the separator-interleaved concatenation. *)
Lemma join_concat (sep : string) (items : list string) :
  join sep items = String.concat sep items.
Proof.
  destruct items as [|x rest]; [reflexivity|].
  unfold join. now rewrite fold_join, concat_cons.
Qed.

Lemma percent_braces (x : string) : percent "{%s}" x = "{" +:+ x +:+ "}".
Proof. reflexivity. Qed.

(** ** Name resolution *)

(** Of all the global names the function bodies load, exactly one is
    bound neither by the module nor by the builtins. *)
Lemma only_custom_op_is_unbound :
  unbound module_globals (concat (map snd free_names)) = ["custom_op"].
Proof. reflexivity. Qed.

Lemma custom_op_is_not_a_global :
  load_global module_globals "custom_op" = Raise (NameError "custom_op").
Proof. reflexivity. Qed.

Lemma custom_op_would_be_a_global :
  load_global globals_with_custom_op "custom_op" =
  Return (imported_from "...sql.operators" "custom_op").
Proof. reflexivity. Qed.

Section properties.
Context `{ext : Externals}.

(** ** The adaptation hook of [JSONB] *)

(** With [custom_op] bound, the hook gives Boolean to the five
    membership operators and leaves the operator as it is. *)
Lemma adapt_membership_when_bound (self other : Comparator) (c : custom_op_object) :
  in_ (opstring c) ["?"; "?&"; "?|"; "@>"; "<@"] = true ->
  _adapt_expression globals_with_custom_op self (custom c) other =
  Return (custom c, Plain Boolean).
Proof.
  intros Hin. unfold _adapt_expression. cbn. now rewrite Hin.
Qed.

(** With [custom_op] bound, every operator other than the five and [->]
    falls through to the rule of [Concatenable]. *)
Lemma adapt_falls_through_when_bound (self other : Comparator) (op : operator) :
  (forall c, op = custom c ->
     in_ (opstring c) ["?"; "?&"; "?|"; "@>"; "<@"] = false /\
     String.eqb (opstring c) "->" = false) ->
  _adapt_expression globals_with_custom_op self op other =
  Return (Concatenable_adapt_expression self op other).
Proof.
  intros Hop. unfold _adapt_expression. destruct op as [name|c]; cbn.
  - reflexivity.
  - destruct (Hop c eq_refl) as [H5 Hidx]. now rewrite H5, Hidx.
Qed.

(** With [custom_op] bound, a membership predicate on a [JSONB] receiver
    makes a Boolean expression with the named operator. *)
Lemma predicate_when_bound (e : element) (t : document_type)
    (opstring : string) (other : operand) :
  type_of e = Document t -> class_ t = JSONB ->
  in_ opstring ["?"; "?&"; "?|"; "@>"; "<@"] = true ->
  op_ globals_with_custom_op e opstring other =
  Return (BinaryExpression e
            (custom (operators.custom_op call_time opstring 0 false))
            (_check_literal other) (Plain Boolean)).
Proof.
  intros Ht Hc Hin. unfold op_, operate, adapt_expression. cbn [comparator expr].
  rewrite Ht, Hc.
  rewrite adapt_membership_when_bound by exact Hin.
  reflexivity.
Qed.

(** The hook cannot get past a name that does not resolve. *)
Lemma adapt_expression_unbound_name
    (G : namespace) (self other : Comparator) (op : operator) (b : binding) (e : exn) :
  load_global G "isinstance" = Return b ->
  load_global G "custom_op" = Raise e ->
  _adapt_expression G self op other = Raise e.
Proof.
  intros Hb He. unfold _adapt_expression. rewrite Hb, He. reflexivity.
Qed.

(** C2 (as the code runs).  The adaptation hook of [JSONB] raises
    [NameError] for every receiver, operator and other operand: its body
    loads the global name [custom_op], which json.py never binds (it
    imports the module [operators] only).  So no operator falls through
    to the rule of [Concatenable]. *)
Theorem adapt_expression_raises_NameError
    (self : Comparator) (op : operator) (other_comparator : Comparator) :
  _adapt_expression module_globals self op other_comparator =
  Raise (NameError "custom_op").
Proof.
  apply (adapt_expression_unbound_name _ _ _ _ (builtin "isinstance"));
    [reflexivity | exact custom_op_is_not_a_global].
Qed.

(** C1 (as the code runs).  On a receiver of type [JSONB], each of
    [has_key], [has_all], [has_any], [contains] and [contained_by] raises
    [NameError]: the operation has no result type of its own, so the
    receiver's adaptation hook is asked, and its body fails on the
    unbound name [custom_op].  No Boolean expression is made. *)
Theorem membership_predicates_raise_NameError
    (self : Comparator) (t : document_type) (other : operand) :
  type_of (expr self) = Document t -> class_ t = JSONB ->
  has_key module_globals self other = Raise (NameError "custom_op") /\
  has_all module_globals self other = Raise (NameError "custom_op") /\
  has_any module_globals self other = Raise (NameError "custom_op") /\
  contains module_globals self other = Raise (NameError "custom_op") /\
  contained_by module_globals self other = Raise (NameError "custom_op").
Proof.
  intros Ht Hc.
  assert (Hop : forall s, op_ module_globals (expr self) s other =
                          Raise (NameError "custom_op")).
  { intros s. unfold op_, operate, adapt_expression. cbn [comparator expr].
    rewrite Ht, Hc.
    now rewrite (adapt_expression_unbound_name module_globals _ _ _
                   (builtin "isinstance") (NameError "custom_op")
                   eq_refl custom_op_is_not_a_global). }
  unfold has_key, has_all, has_any, contains, contained_by.
  repeat split; apply Hop.
Qed.

(** ** The operator constants *)

(** C3 (amended).  [INDEX] is [->], [PATHIDX] is [#>], [ASTEXT] is [->>],
    [ASTEXT_PATHIDX] is [#>>]; all four have precedence 5, and all four
    have the self-precedent flag set. *)
Theorem operator_constants :
  map opstring [INDEX; PATHIDX; ASTEXT; ASTEXT_PATHIDX] =
    ["->"; "#>"; "->>"; "#>>"] /\
  map precedence [INDEX; PATHIDX; ASTEXT; ASTEXT_PATHIDX] = [5; 5; 5; 5] /\
  map natural_self_precedent [INDEX; PATHIDX; ASTEXT; ASTEXT_PATHIDX] =
    [true; true; true; true].
Proof. repeat split. Qed.

(** ** Index resolution *)

(** What [_setup_getitem] returns for a key that is not text: the
    assertion decides. *)
Lemma setup_getitem_sequence (self : Comparator) (index : object) (elems : list object) :
  is_string index = false -> iter index = Return elems -> is_Sequence index = true ->
  _setup_getitem self index =
  let rendered := percent "{%s}" (join ", " (map text_type elems)) in
  Return (PATHIDX, rendered, _type_for_index self rendered).
Proof.
  intros Hs Hi Hq. unfold _setup_getitem.
  destruct index; try discriminate Hs; rewrite ?Hq, ?Hi; try discriminate Hq;
    reflexivity.
Qed.

(** The operator [_setup_getitem] resolves is [INDEX] or [PATHIDX]. *)
Lemma setup_getitem_operator (self : Comparator) (index : object)
    (o : custom_op_object) (i : string) (t : sqltype) :
  _setup_getitem self index = Return (o, i, t) -> o = INDEX \/ o = PATHIDX.
Proof.
  unfold _setup_getitem.
  destruct index as [| b | n | r | s | items | items | items | cls [items|]];
    cbn; intros H; inversion H; auto.
Qed.

(** The index operation makes the expression of what was resolved. *)
Lemma getitem_of_setup (G : namespace) (self : Comparator) (index : object)
    (o : custom_op_object) (i : string) (t : sqltype) :
  _setup_getitem self index = Return (o, i, t) ->
  __getitem__ G self index =
  Return (BinaryExpression (expr self) (custom o) (BindParameter (Str i)) t).
Proof. intros H. unfold __getitem__. now rewrite H. Qed.

Lemma getitem_raises (G : namespace) (self : Comparator) (index : object) (e : exn) :
  _setup_getitem self index = Raise e -> __getitem__ G self index = Raise e.
Proof. intros H. unfold __getitem__. now rewrite H. Qed.

(** C4 (as the code runs).  A number is never resolved to [INDEX]: for
    every integer and every float, whatever the receiver and its
    [index_map], the key is not text, so it takes the branch of the
    paths, whose assertion it fails; [_setup_getitem] raises
    [AssertionError] and the index operation makes no expression. *)
Theorem number_key_raises_AssertionError
    (G : namespace) (self : Comparator) (n : Z) (r : string) :
  (_setup_getitem self (Int_ n) = Raise AssertionError /\
   __getitem__ G self (Int_ n) = Raise AssertionError) /\
  (_setup_getitem self (Float_ r) = Raise AssertionError /\
   __getitem__ G self (Float_ r) = Raise AssertionError).
Proof.
  split; split; try reflexivity; now apply getitem_raises.
Qed.

(** X14.  For every text key [k] that has no entry in the [index_map],
    indexing resolves to [INDEX], the rendered index is [k] as it is,
    and the result type is the receiver's own document type; the index
    operation makes that expression. *)
Theorem text_key_resolves_to_INDEX
    (G : namespace) (self : Comparator) (t : document_type) (k : string) :
  type_of (expr self) = Document t -> index_map t !! k = None ->
  _setup_getitem self (Str k) = Return (INDEX, k, Document t) /\
  __getitem__ G self (Str k) =
    Return (BinaryExpression (expr self) (custom INDEX)
              (BindParameter (Str k)) (Document t)).
Proof.
  intros Ht Hk.
  assert (H : _setup_getitem self (Str k) = Return (INDEX, k, Document t)).
  { unfold _setup_getitem, _type_for_index. cbn. now rewrite Ht, Hk. }
  split; [exact H | now apply getitem_of_setup].
Qed.

(** C5 (amended).  For every key that is neither a scalar nor an
    ordered sequence ([None], a mapping, an instance of a class that is
    not a sequence), resolution fails at once with the failed assertion
    on the key's type, and the index operation makes no expression. *)
Theorem key_of_wrong_shape_is_refused
    (G : namespace) (self : Comparator) (index : object) :
  is_scalar index = false -> is_Sequence index = false ->
  _setup_getitem self index = Raise AssertionError /\
  __getitem__ G self index = Raise AssertionError.
Proof.
  intros Hs Hq.
  assert (H : _setup_getitem self index = Raise AssertionError).
  { unfold _setup_getitem.
    destruct index as [| b | n | r | s | items | items | items | cls [items|]];
      try discriminate; reflexivity. }
  split; [exact H | now apply getitem_raises].
Qed.

(** C6.  For every sequence of keys [k1..kn], given as a tuple or as a
    list, indexing resolves to [PATHIDX], and the rendered index is the
    text of the keys, joined by a comma and a space, between braces:
    ["{k1, k2, ..., kn}"].  Nothing in it needs the sequence to be
    non-empty. *)
Theorem path_key_resolves_to_PATHIDX (self : Comparator) (items : list object) :
  let rendered := "{" +:+ String.concat ", " (map text_type items) +:+ "}" in
  _setup_getitem self (Tuple items) =
    Return (PATHIDX, rendered, _type_for_index self rendered) /\
  _setup_getitem self (List_ items) =
    Return (PATHIDX, rendered, _type_for_index self rendered).
Proof.
  intros rendered. subst rendered.
  rewrite <- join_concat, <- percent_braces.
  split; now apply setup_getitem_sequence.
Qed.

(** ** Text coercion *)

(** What [astext] does on any expression that has an operator. *)
Lemma astext_of_expression (G : namespace) (l r : element) (op : operator) (t : sqltype) :
  astext G (comparator (BinaryExpression l op r t)) =
  Return (BinaryExpression l
            (custom (if is_ op PATHIDX then ASTEXT_PATHIDX else ASTEXT))
            r (Plain Text)).
Proof. reflexivity. Qed.

(** C7.  For every expression [e] made by an index operation, [e] has
    operator [INDEX] or [PATHIDX], and [astext] makes a new expression
    with the operands of [e], result type [Text], and operator [ASTEXT]
    for [INDEX], [ASTEXT_PATHIDX] for [PATHIDX]. *)
Theorem astext_of_indexed_expression
    (G : namespace) (self : Comparator) (index : object) (e : element) :
  __getitem__ G self index = Return e ->
  exists (l r : element) (t : sqltype),
    (e = BinaryExpression l (custom INDEX) r t /\
     astext G (comparator e) =
       Return (BinaryExpression l (custom ASTEXT) r (Plain Text))) \/
    (e = BinaryExpression l (custom PATHIDX) r t /\
     astext G (comparator e) =
       Return (BinaryExpression l (custom ASTEXT_PATHIDX) r (Plain Text))).
Proof.
  intros H.
  destruct (_setup_getitem self index) as [[[o i] t]|err] eqn:E.
  - rewrite (getitem_of_setup G _ _ _ _ _ E) in H. inversion H; subst e.
    exists (expr self), (BindParameter (Str i)), t.
    destruct (setup_getitem_operator _ _ _ _ _ E) as [-> | ->];
      [left | right]; split; reflexivity.
  - rewrite (getitem_raises G _ _ _ E) in H. discriminate H.
Qed.

(** C10 (amended).  [astext] checks nothing about where its receiver
    came from: for every expression whose operator is not the [PATHIDX]
    object, whatever that operator is, it returns the expression with the
    same operands, operator [ASTEXT] and result type [Text]. *)
Theorem astext_else_branch_is_catch_all
    (G : namespace) (l r : element) (op : operator) (t : sqltype) :
  is_ op PATHIDX = false ->
  astext G (comparator (BinaryExpression l op r t)) =
  Return (BinaryExpression l (custom ASTEXT) r (Plain Text)).
Proof. intros H. rewrite astext_of_expression. now rewrite H. Qed.

(** ** The bind and result processors *)

Lemma serialized_is_not_absent (dialect : Dialect) (value : object) :
  serialized dialect value <> Return None.
Proof.
  unfold serialized.
  destruct (match _json_serializer dialect with Some f => f | None => json_dumps end value)
    as [s|e]; cbn; [|discriminate].
  destruct py2k; [|discriminate].
  destruct (str_encode s (encoding dialect)); cbn; discriminate.
Qed.

Lemma bind_processor_unfold (self : document_type) (dialect : Dialect) (value : object) :
  bind_processor self dialect value =
  if is_Null value || (is_None value && none_as_null self) then Return None
  else serialized dialect value.
Proof.
  unfold bind_processor, serialized, or_.
  destruct py2k; reflexivity.
Qed.

(** C8.  The bind processor returns the absent result for the SQL NULL
    marker, and for [None] when [none_as_null] is set; for every other
    value, and for [None] when [none_as_null] is not set, it returns what
    the serializer gives for the value (the dialect's override, or
    [json.dumps] when there is none), which is never the absent
    result. *)
Theorem bind_processor_null_policy
    (self : document_type) (dialect : Dialect) (value : object) :
  let process := bind_processor self dialect in
  (is_Null value = true \/ (value = None_ /\ none_as_null self = true) ->
   process value = Return None) /\
  (is_Null value = false -> (value = None_ -> none_as_null self = false) ->
   process value = serialized dialect value /\ process value <> Return None) /\
  (none_as_null self = false ->
   process None_ = serialized dialect None_ /\ process None_ <> Return None).
Proof.
  intros process. subst process.
  assert (Hother : is_Null value = false ->
                   (value = None_ -> none_as_null self = false) ->
                   bind_processor self dialect value = serialized dialect value).
  { intros Hn Hnone. rewrite bind_processor_unfold, Hn.
    destruct value; try reflexivity.
    cbn. now rewrite Hnone. }
  split; [|split].
  - intros [Hn | [-> Hflag]]; rewrite bind_processor_unfold.
    + now rewrite Hn.
    + cbn. now rewrite Hflag.
  - intros Hn Hnone. rewrite (Hother Hn Hnone).
    split; [reflexivity | apply serialized_is_not_absent].
  - intros Hflag. rewrite bind_processor_unfold. cbn. rewrite Hflag. cbn.
    split; [reflexivity | apply serialized_is_not_absent].
Qed.

(** What the result processor does with a payload. *)
Lemma result_processor_unfold
    (self : document_type) (dialect : Dialect) (coltype : object) (value : option payload) :
  result_processor self dialect coltype value =
  let json_deserializer :=
    match _json_deserializer dialect with Some f => f | None => json_loads end in
  match value with
  | None => Return None_
  | Some v =>
      if py2k then t ← bytes_decode v (encoding dialect); json_deserializer (text t)
      else json_deserializer v
  end.
Proof.
  unfold result_processor, or_.
  destruct py2k, value; reflexivity.
Qed.

(** X1.  The bridge adds nothing of its own to a round trip: where a value is
    serialized to [s] (and, when the driver wants bytes, [s] survives
    encoding and decoding), the result processor hands the
    deserializer [s].  Whether [result(bind(v))] is [v] again is then a
    matter of the serializer and the deserializer alone. *)
Lemma result_of_bind
    (self : document_type) (dialect : Dialect) (coltype value : object) (s : string) :
  is_Null value = false -> (value = None_ -> none_as_null self = false) ->
  match _json_serializer dialect with Some f => f | None => json_dumps end value
    = Return s ->
  (py2k = true ->
   exists b, str_encode s (encoding dialect) = Return b /\
             bytes_decode (bytes b) (encoding dialect) = Return s) ->
  (w ← bind_processor self dialect value;
   result_processor self dialect coltype w) =
  match _json_deserializer dialect with Some f => f | None => json_loads end (text s).
Proof.
  intros Hn Hnone Hs Hcodec.
  rewrite bind_processor_unfold, Hn.
  replace (is_None value && none_as_null self) with false
    by (destruct value; try reflexivity; cbn; now rewrite Hnone).
  cbn [orb]. unfold serialized. rewrite Hs. cbn.
  destruct py2k eqn:Hpy.
  - destruct (Hcodec eq_refl) as (b & He & Hd). rewrite He. cbn.
    rewrite result_processor_unfold, Hpy. cbn. now rewrite Hd.
  - cbn. rewrite result_processor_unfold, Hpy. reflexivity.
Qed.

(** SQL NULL comes back as [None]. *)
Lemma result_of_null (self : document_type) (dialect : Dialect) (coltype : object) :
  result_processor self dialect coltype None = Return None_.
Proof. now rewrite result_processor_unfold. Qed.

End properties.

(** ** Registration *)

(** X6.  After the import the table of native type names has ["json"]
    for [JSON] and ["jsonb"] for [JSONB], whatever it held under these
    two names before, and every other name is as it was. *)
Lemma register_lookup (ischema_names : gmap string string) :
  register ischema_names !! "json" = Some "JSON" /\
  register ischema_names !! "jsonb" = Some "JSONB" /\
  (forall name, name <> "json" -> name <> "jsonb" ->
     register ischema_names !! name = ischema_names !! name).
Proof.
  unfold register. repeat split.
  - rewrite lookup_insert_ne by discriminate. apply lookup_insert_eq.
  - apply lookup_insert_eq.
  - intros name Hj Hb. rewrite !lookup_insert_ne by congruence. reflexivity.
Qed.

(** ** The properties at concrete inputs *)

(** C1: [jb.has_key("x")] and its four siblings on the [JSONB] column. *)
Lemma membership_predicates_on_data_column :
  has_key (ext := stand_in) module_globals (comparator data_column_b)
    (literal (Str "x")) = Raise (NameError "custom_op") /\
  has_all (ext := stand_in) module_globals (comparator data_column_b)
    (literal (Str "x")) = Raise (NameError "custom_op") /\
  has_any (ext := stand_in) module_globals (comparator data_column_b)
    (literal (Str "x")) = Raise (NameError "custom_op") /\
  contains (ext := stand_in) module_globals (comparator data_column_b)
    (literal (Str "x")) = Raise (NameError "custom_op") /\
  contained_by (ext := stand_in) module_globals (comparator data_column_b)
    (literal (Str "x")) = Raise (NameError "custom_op").
Proof.
  apply (membership_predicates_raise_NameError (ext := stand_in)
           (comparator data_column_b) (__init__ JSONB false None)
           (literal (Str "x")));
    reflexivity.
Defined.

(** With [custom_op] bound, the same call makes the Boolean expression
    of scenario C of the specification. *)
Example has_key_when_bound :
  has_key (ext := stand_in) globals_with_custom_op (comparator data_column_b)
    (literal (Str "x")) =
  Return (BinaryExpression data_column_b
            (custom (operators.custom_op call_time "?" 0 false))
            (BindParameter (Str "x")) (Plain Boolean)).
Proof. reflexivity. Qed.

(** C3 (as stated) fails at [ASTEXT] and at [ASTEXT_PATHIDX]: both
    are created with [natural_self_precedent=True]. *)
Lemma text_operators_have_the_flag :
  natural_self_precedent ASTEXT = true /\
  natural_self_precedent ASTEXT_PATHIDX = true.
Proof. split; reflexivity. Qed.

(** C4 at [data[5]], the [col[5]] of the docstring of [JSON.__init__]:
    a scalar key with no entry in the [index_map] of the column, and the
    assertion refuses it. *)
Lemma number_key_is_refused :
  index_map (__init__ JSON false None) = ∅ /\
  _setup_getitem (ext := stand_in) (comparator data_column) (Int_ 5) =
    Raise AssertionError /\
  __getitem__ (ext := stand_in) module_globals (comparator data_column) (Int_ 5) =
    Raise AssertionError.
Proof. repeat split. Qed.

(** X14 at the key of the docstring, ['some key']. *)
Lemma text_key_on_data_column :
  _setup_getitem (ext := stand_in) (comparator data_column) (Str "some key") =
    Return (INDEX, "some key", Document (__init__ JSON false None)) /\
  __getitem__ (ext := stand_in) module_globals (comparator data_column)
    (Str "some key") =
    Return (BinaryExpression data_column (custom INDEX)
              (BindParameter (Str "some key"))
              (Document (__init__ JSON false None))).
Proof.
  apply (text_key_resolves_to_INDEX (ext := stand_in) module_globals
           (comparator data_column) (__init__ JSON false None) "some key");
    reflexivity.
Defined.

(** C5 (as stated) fails at the empty tuple: it is a sequence, the
    assertion holds, and an expression is made, with the rendered index
    ["{}"]. *)
Lemma empty_path_is_accepted :
  _setup_getitem (ext := stand_in) (comparator data_column) (Tuple []) =
    Return (PATHIDX, "{}", Document (__init__ JSON false None)) /\
  __getitem__ (ext := stand_in) module_globals (comparator data_column) (Tuple []) =
    Return (BinaryExpression data_column (custom PATHIDX)
              (BindParameter (Str "{}"))
              (Document (__init__ JSON false None))).
Proof. split; reflexivity. Qed.

(** C5 (amended) at [None] and at a mapping. *)
Lemma none_and_mapping_keys_are_refused :
  (_setup_getitem (ext := stand_in) (comparator data_column) None_ =
     Raise AssertionError /\
   __getitem__ (ext := stand_in) module_globals (comparator data_column) None_ =
     Raise AssertionError) /\
  (_setup_getitem (ext := stand_in) (comparator data_column)
     (Dict [(Str "a", Int_ 1)]) = Raise AssertionError /\
   __getitem__ (ext := stand_in) module_globals (comparator data_column)
     (Dict [(Str "a", Int_ 1)]) = Raise AssertionError).
Proof.
  split.
  - apply (key_of_wrong_shape_is_refused (ext := stand_in) module_globals
             (comparator data_column) None_); reflexivity.
  - apply (key_of_wrong_shape_is_refused (ext := stand_in) module_globals
             (comparator data_column) (Dict [(Str "a", Int_ 1)])); reflexivity.
Defined.

(** A [range] is a sequence that is neither a tuple nor a list: it is
    taken as a path. *)
Example range_key_is_a_path :
  _setup_getitem (ext := stand_in) (comparator data_column)
    (Instance "builtins.range" (Some [Int_ 0; Int_ 1; Int_ 2])) =
  Return (PATHIDX, "{0, 1, 2}", Document (__init__ JSON false None)).
Proof. reflexivity. Qed.

(** C6 at the path of scenario B, and at a path with a number in it. *)
Example path_key_on_data_column :
  _setup_getitem (ext := stand_in) (comparator data_column)
    (Tuple [Str "a"; Str "b"]) =
    Return (PATHIDX, "{a, b}", Document (__init__ JSON false None)) /\
  _setup_getitem (ext := stand_in) (comparator data_column)
    (List_ [Str "key_1"; Int_ 2; Int_ (-1)]) =
    Return (PATHIDX, "{key_1, 2, -1}", Document (__init__ JSON false None)).
Proof. split; reflexivity. Qed.

(** C7 at scenario A: [c["a"].astext]. *)
Lemma astext_of_indexed_data_column :
  exists (l r : element) (t : sqltype),
    (BinaryExpression data_column (custom INDEX) (BindParameter (Str "a"))
       (Document (__init__ JSON false None)) =
     BinaryExpression l (custom INDEX) r t /\
     astext (ext := stand_in) module_globals
       (comparator
          (BinaryExpression data_column (custom INDEX) (BindParameter (Str "a"))
             (Document (__init__ JSON false None)))) =
     Return (BinaryExpression l (custom ASTEXT) r (Plain Text))) \/
    (BinaryExpression data_column (custom INDEX) (BindParameter (Str "a"))
       (Document (__init__ JSON false None)) =
     BinaryExpression l (custom PATHIDX) r t /\
     astext (ext := stand_in) module_globals
       (comparator
          (BinaryExpression data_column (custom INDEX) (BindParameter (Str "a"))
             (Document (__init__ JSON false None)))) =
     Return (BinaryExpression l (custom ASTEXT_PATHIDX) r (Plain Text))).
Proof.
  apply (astext_of_indexed_expression (ext := stand_in) module_globals
           (comparator data_column) (Str "a")).
  reflexivity.
Defined.

(** Scenarios A and B of the specification, run. *)
Example scenario_A :
  (e ← __getitem__ (ext := stand_in) module_globals (comparator data_column) (Str "a");
   astext (ext := stand_in) module_globals (comparator e)) =
  Return (BinaryExpression data_column (custom ASTEXT)
            (BindParameter (Str "a")) (Plain Text)).
Proof. reflexivity. Qed.

Example scenario_B :
  (e ← __getitem__ (ext := stand_in) module_globals (comparator data_column)
         (Tuple [Str "a"; Str "b"]);
   astext (ext := stand_in) module_globals (comparator e)) =
  Return (BinaryExpression data_column (custom ASTEXT_PATHIDX)
            (BindParameter (Str "{a, b}")) (Plain Text)).
Proof. reflexivity. Qed.

(** C8 at [None] under both settings of [none_as_null], at the SQL NULL
    marker, and at a number. *)
Lemma bind_processor_on_plain_dialect :
  bind_processor (ext := stand_in) (__init__ JSON true None) plain_dialect None_ =
    Return None /\
  bind_processor (ext := stand_in) (__init__ JSON false None) plain_dialect
    (Instance "sqlalchemy.sql.elements.Null" None) = Return None /\
  bind_processor (ext := stand_in) (__init__ JSON false None) plain_dialect None_ =
    Return (Some (text "null")) /\
  bind_processor (ext := stand_in) (__init__ JSON true None) plain_dialect (Int_ 5) =
    Return (Some (text "5")).
Proof.
  split; [|split; [|split]].
  - apply (proj1 (bind_processor_null_policy (ext := stand_in)
                    (__init__ JSON true None) plain_dialect None_)).
    right. split; reflexivity.
  - apply (proj1 (bind_processor_null_policy (ext := stand_in)
                    (__init__ JSON false None) plain_dialect
                    (Instance "sqlalchemy.sql.elements.Null" None))).
    left. reflexivity.
  - apply (proj1 (proj2 (proj2 (bind_processor_null_policy (ext := stand_in)
                    (__init__ JSON false None) plain_dialect None_)) eq_refl)).
  - apply (proj1 (proj1 (proj2 (bind_processor_null_policy (ext := stand_in)
                    (__init__ JSON true None) plain_dialect (Int_ 5)))
                    eq_refl (fun H => ltac:(discriminate H)))).
Defined.

(** C10 (as stated) fails at a bare column: it has no [operator], and
    [astext] raises. *)
Lemma astext_of_bare_column_raises :
  astext (ext := stand_in) module_globals (comparator data_column) =
  Raise (AttributeError "operator").
Proof. reflexivity. Qed.

(** C10 (amended) at two receivers that no index operation made: a
    concatenation, and an expression whose operator is another [#>]
    object than [PATHIDX]. *)
Lemma astext_of_other_expressions :
  astext (ext := stand_in) module_globals
    (comparator (BinaryExpression data_column (function_ "concat_op")
                   (BindParameter (Str "x")) (type_of data_column))) =
    Return (BinaryExpression data_column (custom ASTEXT)
              (BindParameter (Str "x")) (Plain Text)) /\
  astext (ext := stand_in) module_globals
    (comparator (BinaryExpression data_column
                   (custom (operators.custom_op call_time "#>" 5 true))
                   (BindParameter (Str "{a}")) (type_of data_column))) =
    Return (BinaryExpression data_column (custom ASTEXT)
              (BindParameter (Str "{a}")) (Plain Text)).
Proof.
  split.
  - apply (astext_else_branch_is_catch_all (ext := stand_in) module_globals).
    reflexivity.
  - apply (astext_else_branch_is_catch_all (ext := stand_in) module_globals).
    reflexivity.
Defined.

(** * Further properties of the module *)

Section more_properties.
Context `{ext : Externals}.

(** ** Which keys [_setup_getitem] takes, and what it hands back *)

(** X7.  [_setup_getitem] returns exactly for the keys that are
    sequences (text, tuples, lists) and raises for every other key. *)
Theorem setup_getitem_returns_iff_sequence (self : Comparator) (index : object) :
  returns (_setup_getitem self index) = is_Sequence index.
Proof.
  unfold _setup_getitem.
  destruct index as [| b | n | r | s | items | items | items | cls [items|]];
    reflexivity.
Qed.

(** X8.  Whatever [_setup_getitem] returns hangs together: the result
    type is the one looked up under the rendered index (for a path, under
    its rendered text, not under the sequence), and either the key was
    text, kept as it is with [INDEX], or it was not text, the operator is
    [PATHIDX] and the rendered index is enclosed in braces. *)
Theorem setup_getitem_inversion
    (self : Comparator) (index : object)
    (o : custom_op_object) (i : string) (t : sqltype) :
  _setup_getitem self index = Return (o, i, t) ->
  t = _type_for_index self i /\
  ((o = INDEX /\ index = Str i) \/
   (o = PATHIDX /\ is_string index = false /\
    exists elems, iter index = Return elems /\
      i = "{" +:+ String.concat ", " (map text_type elems) +:+ "}")).
Proof.
  unfold _setup_getitem.
  destruct index as [| b | n | r | s | items | items | items | cls [items|]];
    cbn; intros H; inversion H; subst; split; try reflexivity.
  - left. split; reflexivity.
  - right. repeat split. exists items. split; [reflexivity|].
    now rewrite join_concat.
  - right. repeat split. exists items. split; [reflexivity|].
    now rewrite join_concat.
  - right. repeat split. exists items. split; [reflexivity|].
    now rewrite join_concat.
Qed.

(** Joining is blind to where one item ends and the next begins. *)
Lemma concat_merge (sep a b : string) (pre post : list string) :
  String.concat sep (pre ++ (a +:+ sep +:+ b) :: post) =
  String.concat sep (pre ++ a :: b :: post).
Proof.
  assert (Htail : forall l,
            fold_right (fun item tail => sep +:+ item +:+ tail) ""
              (l ++ (a +:+ sep +:+ b) :: post) =
            fold_right (fun item tail => sep +:+ item +:+ tail) ""
              (l ++ a :: b :: post)).
  { intros l. rewrite !fold_right_app. f_equal.
    cbn [fold_right]. now rewrite !append_assoc. }
  destruct pre as [|x pre].
  - cbn [app]. rewrite !concat_cons. cbn [fold_right].
    now rewrite !append_assoc.
  - cbn [app]. rewrite !concat_cons. now rewrite Htail.
Qed.

(** X9.  A number in a path is rendered as its decimal text: a path
    with the integer [n] at some place and the path with the text of [n]
    at that place resolve to the same operator, rendered index and
    type. *)
Theorem path_number_is_its_text
    (self : Comparator) (pre post : list object) (n : Z) :
  _setup_getitem self (Tuple (pre ++ Int_ n :: post)) =
  _setup_getitem self (Tuple (pre ++ Str (pretty n) :: post)).
Proof.
  rewrite !(setup_getitem_sequence self (Tuple _) _ eq_refl eq_refl eq_refl).
  rewrite !map_app. reflexivity.
Qed.

(** X10.  The rendering of a path quotes nothing: a key that contains
    the separator [", "] renders as the two keys around it, so the two
    paths resolve alike. *)
Theorem path_rendering_merges_keys
    (self : Comparator) (pre post : list object) (a b : string) :
  _setup_getitem self (Tuple (pre ++ Str (a +:+ ", " +:+ b) :: post)) =
  _setup_getitem self (Tuple (pre ++ Str a :: Str b :: post)).
Proof.
  rewrite !(setup_getitem_sequence self (Tuple _) _ eq_refl eq_refl eq_refl).
  rewrite !join_concat, !map_app. cbn [map text_type].
  now rewrite concat_merge.
Qed.

(** ** Indexing, composed *)

(** X11.  [col[key].astext], for every receiver, namespace and
    [index_map]: a text key gives [->>] with the key, a tuple or a list
    gives [#>>] with the rendered path, and so does an instance of any
    other sequence class, all of type [Text] whatever type the index
    operation had declared; any key that is not a sequence raises the
    assertion failure of the index operation. *)
Theorem index_then_astext (G : namespace) (self : Comparator) :
  (forall k,
     (e ← __getitem__ G self (Str k); astext G (comparator e)) =
     Return (BinaryExpression (expr self) (custom ASTEXT)
               (BindParameter (Str k)) (Plain Text))) /\
  (forall items,
     let rendered := "{" +:+ String.concat ", " (map text_type items) +:+ "}" in
     (e ← __getitem__ G self (Tuple items); astext G (comparator e)) =
       Return (BinaryExpression (expr self) (custom ASTEXT_PATHIDX)
                 (BindParameter (Str rendered)) (Plain Text)) /\
     (e ← __getitem__ G self (List_ items); astext G (comparator e)) =
       Return (BinaryExpression (expr self) (custom ASTEXT_PATHIDX)
                 (BindParameter (Str rendered)) (Plain Text))) /\
  (forall index, is_Sequence index = false ->
     (e ← __getitem__ G self index; astext G (comparator e)) =
     Raise AssertionError) /\
  (forall cls items,
     let rendered := "{" +:+ String.concat ", " (map text_type items) +:+ "}" in
     (e ← __getitem__ G self (Instance cls (Some items));
      astext G (comparator e)) =
       Return (BinaryExpression (expr self) (custom ASTEXT_PATHIDX)
                 (BindParameter (Str rendered)) (Plain Text))).
Proof.
  split; [|split; [|split]]; cycle 3.
  - intros cls items rendered. subst rendered.
    rewrite <- join_concat, <- percent_braces.
    rewrite (getitem_of_setup G _ _ _ _ _
               (setup_getitem_sequence self (Instance cls (Some items)) items
                  eq_refl eq_refl eq_refl)).
    reflexivity.
  - intros k. reflexivity.
  - intros items rendered. subst rendered.
    rewrite <- join_concat, <- percent_braces.
    split.
    + rewrite (getitem_of_setup G _ _ _ _ _
                 (setup_getitem_sequence self (Tuple items) items
                    eq_refl eq_refl eq_refl)).
      reflexivity.
    + rewrite (getitem_of_setup G _ _ _ _ _
                 (setup_getitem_sequence self (List_ items) items
                    eq_refl eq_refl eq_refl)).
      reflexivity.
  - intros index Hq.
    assert (H : _setup_getitem self index = Raise AssertionError).
    { unfold _setup_getitem.
      destruct index as [| b | n | r | s | items | items | items | cls [items|]];
        try discriminate Hq; reflexivity. }
    now rewrite (getitem_raises G _ _ _ H).
Qed.

(** X12.  Indexing stays indexable: along a chain of text keys none of
    which has an entry in the [index_map], every index operation returns,
    with operator [INDEX], on top of the expression before it, and the
    type stays the document type of the column. *)
Theorem chained_text_keys
    (G : namespace) (t : document_type) (keys : list string) (e : element) :
  type_of e = Document t ->
  Forall (fun k => index_map t !! k = None) keys ->
  getitems G e (map Str keys) =
  Return (fold_left
            (fun acc k => BinaryExpression acc (custom INDEX)
                            (BindParameter (Str k)) (Document t))
            keys e).
Proof.
  intros Ht Hkeys. revert e Ht.
  induction Hkeys as [|k keys Hk _ IH]; intros e Ht; [reflexivity|].
  cbn [map getitems fold_left].
  assert (Hset : _setup_getitem (comparator e) (Str k) =
                 Return (INDEX, k, Document t)).
  { unfold _setup_getitem, _type_for_index. cbn. now rewrite Ht, Hk. }
  rewrite (getitem_of_setup G _ _ _ _ _ Hset). cbn.
  apply IH. reflexivity.
Qed.

(** ** The processors *)

(** X2.  What is persisted as NULL reads back as [None]: for the SQL
    NULL marker, and for [None] under [none_as_null], the result
    processor applied to what the bind processor returned gives [None],
    without the serializer or the deserializer being called. *)
Theorem null_reads_back_as_None
    (self : document_type) (dialect : Dialect) (coltype value : object) :
  is_Null value = true \/ (value = None_ /\ none_as_null self = true) ->
  (w ← bind_processor self dialect value;
   result_processor self dialect coltype w) = Return None_.
Proof.
  intros Hnull. rewrite bind_processor_unfold.
  replace (is_Null value || (is_None value && none_as_null self)) with true.
  - cbn. now rewrite result_processor_unfold.
  - destruct Hnull as [-> | [-> ->]]; reflexivity.
Qed.

(** X4.  The processors look at the column type only for
    [none_as_null], and only when the value is [None]: two types bind
    every other value alike, two types with the same flag bind every
    value alike, and the result processor does not depend on the type or
    on [coltype] at all. *)
Theorem processors_depend_on_flag_only
    (self self' : document_type) (dialect : Dialect)
    (coltype coltype' value : object) (w : option payload) :
  (value <> None_ ->
   bind_processor self dialect value = bind_processor self' dialect value) /\
  (none_as_null self = none_as_null self' ->
   bind_processor self dialect value = bind_processor self' dialect value) /\
  result_processor self dialect coltype w =
    result_processor self' dialect coltype' w.
Proof.
  split; [|split].
  - intros Hv. rewrite !bind_processor_unfold.
    destruct value; try reflexivity. now destruct Hv.
  - intros Hflag. rewrite !bind_processor_unfold. now rewrite Hflag.
  - now rewrite !result_processor_unfold.
Qed.

(** X5.  The processors handle no exception: one raised by the
    serializer (for a value that is not persisted as NULL) comes out of
    the bind processor as it is, and one raised by the deserializer on a
    text payload comes out of the result processor as it is. *)
Theorem codec_errors_propagate
    (self : document_type) (dialect : Dialect) (coltype value : object)
    (v : payload) (e : exn) :
  (is_Null value = false -> (value = None_ -> none_as_null self = false) ->
   match _json_serializer dialect with Some f => f | None => json_dumps end value
     = Raise e ->
   bind_processor self dialect value = Raise e) /\
  (py2k = false ->
   match _json_deserializer dialect with Some f => f | None => json_loads end v
     = Raise e ->
   result_processor self dialect coltype (Some v) = Raise e).
Proof.
  split.
  - intros Hn Hnone Hs. rewrite bind_processor_unfold, Hn.
    replace (is_None value && none_as_null self) with false
      by (destruct value; try reflexivity; cbn; now rewrite Hnone).
    cbn [orb]. unfold serialized. now rewrite Hs.
  - intros Hpy Hd. rewrite result_processor_unfold, Hpy. exact Hd.
Qed.

End more_properties.

(** ** The further properties at concrete inputs *)

(** X1 at [True], for a driver that takes text and for one that takes
    bytes. *)
Lemma result_of_bind_on_true :
  (w ← bind_processor (ext := stand_in) (__init__ JSON false None)
         plain_dialect (Bool_ true);
   result_processor (ext := stand_in) (__init__ JSON false None)
     plain_dialect None_ w) = Return (Bool_ true) /\
  (w ← bind_processor (ext := stand_in_py2k) (__init__ JSON false None)
         plain_dialect (Bool_ true);
   result_processor (ext := stand_in_py2k) (__init__ JSON false None)
     plain_dialect None_ w) = Return (Bool_ true).
Proof.
  split.
  - apply (result_of_bind (ext := stand_in) (__init__ JSON false None)
             plain_dialect None_ (Bool_ true) "true");
      [reflexivity | discriminate | reflexivity | discriminate].
  - apply (result_of_bind (ext := stand_in_py2k) (__init__ JSON false None)
             plain_dialect None_ (Bool_ true) "true");
      [reflexivity | discriminate | reflexivity |].
    intros _. exists "true". split; reflexivity.
Defined.

(** X2 at the SQL NULL marker, and at [None] under [none_as_null]. *)
Lemma null_reads_back_on_plain_dialect :
  (w ← bind_processor (ext := stand_in) (__init__ JSON false None)
         plain_dialect (Instance "sqlalchemy.sql.elements.Null" None);
   result_processor (ext := stand_in) (__init__ JSON false None)
     plain_dialect None_ w) = Return None_ /\
  (w ← bind_processor (ext := stand_in) (__init__ JSON true None)
         plain_dialect None_;
   result_processor (ext := stand_in) (__init__ JSON true None)
     plain_dialect None_ w) = Return None_.
Proof.
  split.
  - apply (null_reads_back_as_None (ext := stand_in)). left. reflexivity.
  - apply (null_reads_back_as_None (ext := stand_in)). right.
    split; reflexivity.
Defined.

(** X4 at a [JSON] column with the flag and a [JSONB] column without. *)
Lemma processors_on_two_types :
  bind_processor (ext := stand_in) (__init__ JSON true None) plain_dialect (Int_ 5) =
    bind_processor (ext := stand_in) (__init__ JSONB false None) plain_dialect (Int_ 5) /\
  bind_processor (ext := stand_in) (__init__ JSON true None) plain_dialect None_ =
    bind_processor (ext := stand_in) (__init__ JSONB true None) plain_dialect None_ /\
  result_processor (ext := stand_in) (__init__ JSON true None) plain_dialect
    None_ (Some (text "true")) =
    result_processor (ext := stand_in) (__init__ JSONB false None) plain_dialect
      (Int_ 114) (Some (text "true")).
Proof.
  split; [|split].
  - apply (proj1 (processors_depend_on_flag_only (ext := stand_in)
                    (__init__ JSON true None) (__init__ JSONB false None)
                    plain_dialect None_ None_ (Int_ 5) None)).
    discriminate.
  - apply (proj1 (proj2 (processors_depend_on_flag_only (ext := stand_in)
                    (__init__ JSON true None) (__init__ JSONB true None)
                    plain_dialect None_ None_ None_ None))).
    reflexivity.
  - apply (proj2 (proj2 (processors_depend_on_flag_only (ext := stand_in)
                    (__init__ JSON true None) (__init__ JSONB false None)
                    plain_dialect None_ (Int_ 114) None_ (Some (text "true"))))).
Defined.

(** X5 at a value the stand-in encoder refuses and a payload the
    stand-in decoder refuses. *)
Lemma codec_errors_on_plain_dialect :
  bind_processor (ext := stand_in) (__init__ JSON false None) plain_dialect
    (Str "x") = Raise (TypeError "is not JSON serializable") /\
  result_processor (ext := stand_in) (__init__ JSON false None) plain_dialect
    None_ (Some (text "{")) = Raise (Raised "ValueError").
Proof.
  split.
  - apply (proj1 (codec_errors_propagate (ext := stand_in)
                    (__init__ JSON false None) plain_dialect None_ (Str "x")
                    (text "{") (TypeError "is not JSON serializable")));
      [reflexivity | discriminate | reflexivity].
  - apply (proj2 (codec_errors_propagate (ext := stand_in)
                    (__init__ JSON false None) plain_dialect None_ (Str "x")
                    (text "{") (Raised "ValueError")));
      reflexivity.
Defined.

(** X6 on a table that already has an entry for ["json"] and one for
    ["integer"]. *)
Lemma register_on_a_table :
  register (<["json" := "OLD"]> (<["integer" := "INTEGER"]> ∅)) !! "json" =
    Some "JSON" /\
  register (<["json" := "OLD"]> (<["integer" := "INTEGER"]> ∅)) !! "jsonb" =
    Some "JSONB" /\
  register (<["json" := "OLD"]> (<["integer" := "INTEGER"]> ∅)) !! "integer" =
    Some "INTEGER".
Proof.
  destruct (register_lookup (<["json" := "OLD"]> (<["integer" := "INTEGER"]> ∅)))
    as (Hjson & Hjsonb & Hother).
  split; [exact Hjson | split; [exact Hjsonb |]].
  rewrite (Hother "integer") by discriminate. reflexivity.
Defined.

(** X8 at the path [("a", 2)]. *)
Lemma setup_getitem_inversion_on_path :
  Document (__init__ JSON false None) =
    _type_for_index (comparator data_column) "{a, 2}" /\
  ((PATHIDX = INDEX /\ Tuple [Str "a"; Int_ 2] = Str "{a, 2}") \/
   (PATHIDX = PATHIDX /\ is_string (Tuple [Str "a"; Int_ 2]) = false /\
    exists elems, iter (Tuple [Str "a"; Int_ 2]) = Return elems /\
      "{a, 2}" = "{" +:+ String.concat ", "
                          (map (text_type (H := stand_in)) elems) +:+ "}")).
Proof.
  apply (setup_getitem_inversion (ext := stand_in) (comparator data_column)
           (Tuple [Str "a"; Int_ 2])).
  reflexivity.
Defined.

(** X9 and X10, run. *)
Example path_collisions :
  _setup_getitem (ext := stand_in) (comparator data_column) (Tuple [Str "a"; Int_ 1]) =
    _setup_getitem (ext := stand_in) (comparator data_column) (Tuple [Str "a"; Str "1"]) /\
  _setup_getitem (ext := stand_in) (comparator data_column) (Tuple [Str "a, b"]) =
    Return (PATHIDX, "{a, b}", Document (__init__ JSON false None)) /\
  _setup_getitem (ext := stand_in) (comparator data_column) (Tuple [Str "a"; Str "b"]) =
    Return (PATHIDX, "{a, b}", Document (__init__ JSON false None)).
Proof. repeat split. Qed.

(** X11 on the [JSONB] column, in the module's own namespace. *)
Lemma index_then_astext_on_data_column :
  (e ← __getitem__ (ext := stand_in) module_globals (comparator data_column_b)
         (Str "some key");
   astext (ext := stand_in) module_globals (comparator e)) =
    Return (BinaryExpression data_column_b (custom ASTEXT)
              (BindParameter (Str "some key")) (Plain Text)) /\
  (e ← __getitem__ (ext := stand_in) module_globals (comparator data_column_b)
         (List_ [Str "key_1"; Int_ 2]);
   astext (ext := stand_in) module_globals (comparator e)) =
    Return (BinaryExpression data_column_b (custom ASTEXT_PATHIDX)
              (BindParameter (Str "{key_1, 2}")) (Plain Text)) /\
  (e ← __getitem__ (ext := stand_in) module_globals (comparator data_column_b)
         (Int_ 5);
   astext (ext := stand_in) module_globals (comparator e)) =
    Raise AssertionError /\
  (e ← __getitem__ (ext := stand_in) module_globals (comparator data_column_b)
         (Instance "builtins.range" (Some [Int_ 0; Int_ 1; Int_ 2]));
   astext (ext := stand_in) module_globals (comparator e)) =
    Return (BinaryExpression data_column_b (custom ASTEXT_PATHIDX)
              (BindParameter (Str "{0, 1, 2}")) (Plain Text)).
Proof.
  destruct (index_then_astext (ext := stand_in) module_globals
              (comparator data_column_b)) as (Htext & Hpath & Hother & Hinst).
  split; [apply Htext | split; [|split]].
  - apply (proj2 (Hpath [Str "key_1"; Int_ 2])).
  - apply Hother. reflexivity.
  - apply (Hinst "builtins.range" [Int_ 0; Int_ 1; Int_ 2]).
Defined.

(** X12 at [data['a']['b']]. *)
Lemma chained_text_keys_on_data_column :
  getitems (H := stand_in) module_globals data_column [Str "a"; Str "b"] =
  Return (BinaryExpression
            (BinaryExpression data_column (custom INDEX)
               (BindParameter (Str "a")) (Document (__init__ JSON false None)))
            (custom INDEX) (BindParameter (Str "b"))
            (Document (__init__ JSON false None))).
Proof.
  apply (chained_text_keys (ext := stand_in) module_globals
           (__init__ JSON false None) ["a"; "b"] data_column).
  - reflexivity.
  - constructor; [reflexivity|].
    constructor; [reflexivity|]. constructor.
Defined.

(** * The codec

    What [json.loads] reads from what [json.dumps] wrote. *)

Ltac euclid := zify; Z.to_euclidean_division_equations; lia.

Lemma length_append (a b : string) :
  String.length (a +:+ b) = (String.length a + String.length b)%nat.
Proof.
  induction a as [|c a IH]; [reflexivity|].
  change (S (String.length (a +:+ b)) = S (String.length a + String.length b)).
  now rewrite IH.
Qed.

Lemma byte_lt_256 (c : ascii) : (N_of_ascii c < 256)%N.
Proof. apply N_ascii_bounded. Qed.

Lemma ascii_of_byte (c : ascii) (n : N) : n = N_of_ascii c -> ascii_of_N n = c.
Proof. intros ->. apply ascii_N_embedding. Qed.

(** ** UTF-8 *)

Lemma utf8_decode_sound_aux (n : nat) :
  forall s cps, (String.length s <= n)%nat ->
    json.utf8_decode s = Some cps ->
    json.utf8_encode cps = s /\ Forall (fun cp => json.is_scalar_value cp = true) cps.
Proof.
  induction n as [|n IH]; intros s cps Hlen.
  - destruct s; [|cbn in Hlen; lia]. cbn. intros [= <-]. split; constructor.
  - destruct s as [|b0 s1]; [cbn; intros [= <-]; split; constructor|].
    cbn [json.utf8_decode].
    pose proof (byte_lt_256 b0) as Hb0.
    set (n0 := N_of_ascii b0) in *.
    assert (Hc0 : ascii_of_N n0 = b0) by (now apply ascii_of_byte).
    cbn in Hlen.
    destruct (n0 <? 128)%N eqn:H1.
    { destruct (json.utf8_decode s1) as [cps1|] eqn:Hs1; [|discriminate].
      cbn. intros [= <-].
      destruct (IH s1 cps1 ltac:(lia) Hs1) as [He Hv].
      apply N.ltb_lt in H1.
      split.
      - cbn [json.utf8_encode]. unfold json.utf8_encode1.
        replace (n0 <? 128)%N with true by (symmetry; now apply N.ltb_lt).
        rewrite Hc0, He. reflexivity.
      - constructor; [|exact Hv]. unfold json.is_scalar_value.
        replace (n0 <? 55296)%N with true by (symmetry; apply N.ltb_lt; lia).
        reflexivity. }
    destruct (n0 <? 194)%N eqn:H2; [discriminate|].
    apply N.ltb_ge in H1, H2.
    destruct (n0 <? 224)%N eqn:H3.
    { destruct s1 as [|b1 s2]; [discriminate|].
      pose proof (byte_lt_256 b1) as Hb1.
      set (n1 := N_of_ascii b1) in *.
      assert (Hc1 : ascii_of_N n1 = b1) by (now apply ascii_of_byte).
      destruct (json.is_continuation n1) eqn:Hk1; [|discriminate].
      destruct (json.utf8_decode s2) as [cps2|] eqn:Hs2; [|discriminate].
      cbn. intros [= <-].
      cbn in Hlen.
      destruct (IH s2 cps2 ltac:(lia) Hs2) as [He Hv].
      apply N.ltb_lt in H3.
      unfold json.is_continuation in Hk1.
      apply andb_prop in Hk1 as [Hk1a Hk1b].
      apply N.leb_le in Hk1a. apply N.ltb_lt in Hk1b.
      set (cp := ((n0 - 192) * 64 + (n1 - 128))%N).
      split.
      - cbn [json.utf8_encode]. unfold json.utf8_encode1.
        replace (cp <? 128)%N with false by (symmetry; apply N.ltb_ge; unfold cp; lia).
        replace (cp <? 2048)%N with true by (symmetry; apply N.ltb_lt; unfold cp; lia).
        replace (192 + cp / 64)%N with n0 by (unfold cp; euclid).
        replace (128 + cp mod 64)%N with n1 by (unfold cp; euclid).
        rewrite Hc0, Hc1, He. reflexivity.
      - constructor; [|exact Hv]. unfold json.is_scalar_value.
        replace (cp <? 55296)%N with true by (symmetry; apply N.ltb_lt; unfold cp; lia).
        reflexivity. }
    apply N.ltb_ge in H3.
    destruct (n0 <? 240)%N eqn:H4.
    { destruct s1 as [|b1 [|b2 s3]]; try discriminate.
      pose proof (byte_lt_256 b1) as Hb1.
      pose proof (byte_lt_256 b2) as Hb2.
      set (n1 := N_of_ascii b1) in *.
      set (n2 := N_of_ascii b2) in *.
      assert (Hc1 : ascii_of_N n1 = b1) by (now apply ascii_of_byte).
      assert (Hc2 : ascii_of_N n2 = b2) by (now apply ascii_of_byte).
      set (cp := ((n0 - 224) * 4096 + (n1 - 128) * 64 + (n2 - 128))%N).
      destruct (json.is_continuation n1) eqn:Hk1; [|discriminate].
      destruct (json.is_continuation n2) eqn:Hk2; [|discriminate].
      destruct (2048 <=? cp)%N eqn:Hlow; [|discriminate].
      destruct (json.is_scalar_value cp) eqn:Hsv; [|discriminate].
      destruct (json.utf8_decode s3) as [cps3|] eqn:Hs3; [|discriminate].
      cbn. intros [= <-].
      cbn in Hlen.
      destruct (IH s3 cps3 ltac:(lia) Hs3) as [He Hv].
      apply N.ltb_lt in H4. apply N.leb_le in Hlow.
      unfold json.is_continuation in Hk1, Hk2.
      apply andb_prop in Hk1 as [Hk1a Hk1b].
      apply andb_prop in Hk2 as [Hk2a Hk2b].
      apply N.leb_le in Hk1a, Hk2a. apply N.ltb_lt in Hk1b, Hk2b.
      split.
      - cbn [json.utf8_encode]. unfold json.utf8_encode1.
        replace (cp <? 128)%N with false by (symmetry; apply N.ltb_ge; lia).
        replace (cp <? 2048)%N with false by (symmetry; apply N.ltb_ge; lia).
        replace (cp <? 65536)%N with true by (symmetry; apply N.ltb_lt; unfold cp; lia).
        replace (224 + cp / 4096)%N with n0 by (unfold cp; euclid).
        replace (128 + (cp / 64) mod 64)%N with n1 by (unfold cp; euclid).
        replace (128 + cp mod 64)%N with n2 by (unfold cp; euclid).
        rewrite Hc0, Hc1, Hc2, He. reflexivity.
      - constructor; [exact Hsv | exact Hv]. }
    apply N.ltb_ge in H4.
    destruct (n0 <? 245)%N eqn:H5; [|discriminate].
    destruct s1 as [|b1 [|b2 [|b3 s4]]]; try discriminate.
    pose proof (byte_lt_256 b1) as Hb1.
    pose proof (byte_lt_256 b2) as Hb2.
    pose proof (byte_lt_256 b3) as Hb3.
    set (n1 := N_of_ascii b1) in *.
    set (n2 := N_of_ascii b2) in *.
    set (n3 := N_of_ascii b3) in *.
    assert (Hc1 : ascii_of_N n1 = b1) by (now apply ascii_of_byte).
    assert (Hc2 : ascii_of_N n2 = b2) by (now apply ascii_of_byte).
    assert (Hc3 : ascii_of_N n3 = b3) by (now apply ascii_of_byte).
    set (cp := ((n0 - 240) * 262144 + (n1 - 128) * 4096
                + (n2 - 128) * 64 + (n3 - 128))%N).
    destruct (json.is_continuation n1) eqn:Hk1; [|discriminate].
    destruct (json.is_continuation n2) eqn:Hk2; [|discriminate].
    destruct (json.is_continuation n3) eqn:Hk3; [|discriminate].
    destruct (65536 <=? cp)%N eqn:Hlow; [|discriminate].
    destruct (cp <? 1114112)%N eqn:Hhigh; [|discriminate].
    destruct (json.utf8_decode s4) as [cps4|] eqn:Hs4; [|discriminate].
    cbn. intros [= <-].
    cbn in Hlen.
    destruct (IH s4 cps4 ltac:(lia) Hs4) as [He Hv].
    apply N.ltb_lt in H5, Hhigh. apply N.leb_le in Hlow.
    unfold json.is_continuation in Hk1, Hk2, Hk3.
    apply andb_prop in Hk1 as [Hk1a Hk1b].
    apply andb_prop in Hk2 as [Hk2a Hk2b].
    apply andb_prop in Hk3 as [Hk3a Hk3b].
    apply N.leb_le in Hk1a, Hk2a, Hk3a. apply N.ltb_lt in Hk1b, Hk2b, Hk3b.
    split.
    + cbn [json.utf8_encode]. unfold json.utf8_encode1.
      replace (cp <? 128)%N with false by (symmetry; apply N.ltb_ge; lia).
      replace (cp <? 2048)%N with false by (symmetry; apply N.ltb_ge; lia).
      replace (cp <? 65536)%N with false by (symmetry; apply N.ltb_ge; lia).
      replace (240 + cp / 262144)%N with n0 by (unfold cp; euclid).
      replace (128 + (cp / 4096) mod 64)%N with n1 by (unfold cp; euclid).
      replace (128 + (cp / 64) mod 64)%N with n2 by (unfold cp; euclid).
      replace (128 + cp mod 64)%N with n3 by (unfold cp; euclid).
      rewrite Hc0, Hc1, Hc2, Hc3, He. reflexivity.
    + constructor; [|exact Hv]. unfold json.is_scalar_value.
      replace (cp <? 55296)%N with false by (symmetry; apply N.ltb_ge; lia).
      replace (57343 <? cp)%N with true by (symmetry; apply N.ltb_lt; lia).
      replace (cp <? 1114112)%N with true by (symmetry; now apply N.ltb_lt).
      reflexivity.
Qed.

(** A text is the UTF-8 of its code points, none of them a surrogate. *)
Lemma utf8_decode_sound (s : string) (cps : list N) :
  json.utf8_decode s = Some cps ->
  json.utf8_encode cps = s /\ Forall (fun cp => json.is_scalar_value cp = true) cps.
Proof. apply (utf8_decode_sound_aux (String.length s)). lia. Qed.

(** ** Escapes *)

Lemma unhex_hex_digit (d : N) :
  (d < 16)%N -> json.unhex (json.hex_digit d) = Some d.
Proof.
  intros H.
  assert (Hd : (d = 0 \/ d = 1 \/ d = 2 \/ d = 3 \/ d = 4 \/ d = 5 \/ d = 6
                \/ d = 7 \/ d = 8 \/ d = 9 \/ d = 10 \/ d = 11 \/ d = 12
                \/ d = 13 \/ d = 14 \/ d = 15)%N) by lia.
  repeat (destruct Hd as [-> | Hd]; [reflexivity|]). subst d. reflexivity.
Qed.

Lemma unhex4_hex4 (n : N) (tail : string) :
  (n < 65536)%N ->
  exists h1 h2 h3 h4,
    json.hex4 n +:+ tail = String h1 (String h2 (String h3 (String h4 tail))) /\
    json.unhex4 h1 h2 h3 h4 = Some n.
Proof.
  intros H. unfold json.hex4.
  eexists _, _, _, _. split; [reflexivity|].
  unfold json.unhex4.
  rewrite !unhex_hex_digit by euclid. cbn.
  f_equal. euclid.
Qed.

Lemma ascii_eqb_of_N (n m : N) :
  (n < 256)%N -> (m < 256)%N -> n <> m ->
  Ascii.eqb (ascii_of_N n) (ascii_of_N m) = false.
Proof.
  intros Hn Hm Hne. apply Ascii.eqb_neq. intros Heq. apply Hne.
  rewrite <- (N_ascii_embedding n Hn), <- (N_ascii_embedding m Hm).
  now rewrite Heq.
Qed.

Lemma append_cons (c : ascii) (a b : string) :
  String c a +:+ b = String c (a +:+ b).
Proof. reflexivity. Qed.

Lemma append_nil (b : string) : "" +:+ b = b.
Proof. reflexivity. Qed.

(** The decoder reads back what the encoder wrote for a text. *)
Lemma scanstring_escape_all (cps : list N) (rest : string) :
  Forall (fun cp => json.is_scalar_value cp = true) cps ->
  json.scanstring (json.escape_all cps +:+ String json.quote rest) =
  Return (json.utf8_encode cps, rest).
Proof.
  induction 1 as [|cp cps Hcp _ IH]; [reflexivity|].
  cbn [json.escape_all json.utf8_encode]. rewrite append_assoc.
  set (tail := json.escape_all cps +:+ String json.quote rest) in *.
  clearbody tail.
  unfold json.is_scalar_value in Hcp.
  unfold json.escape.
  destruct (cp =? 34)%N eqn:E34.
  { apply N.eqb_eq in E34. subst cp. rewrite !append_cons, append_nil.
    cbn. rewrite IH. reflexivity. }
  destruct (cp =? 92)%N eqn:E92.
  { apply N.eqb_eq in E92. subst cp. rewrite !append_cons, append_nil.
    cbn. rewrite IH. reflexivity. }
  destruct (cp =? 10)%N eqn:E10.
  { apply N.eqb_eq in E10. subst cp. rewrite !append_cons, append_nil.
    cbn. rewrite IH. reflexivity. }
  destruct (cp =? 13)%N eqn:E13.
  { apply N.eqb_eq in E13. subst cp. rewrite !append_cons, append_nil.
    cbn. rewrite IH. reflexivity. }
  destruct (cp =? 9)%N eqn:E9.
  { apply N.eqb_eq in E9. subst cp. rewrite !append_cons, append_nil.
    cbn. rewrite IH. reflexivity. }
  destruct (cp =? 8)%N eqn:E8.
  { apply N.eqb_eq in E8. subst cp. rewrite !append_cons, append_nil.
    cbn. rewrite IH. reflexivity. }
  destruct (cp =? 12)%N eqn:E12.
  { apply N.eqb_eq in E12. subst cp. rewrite !append_cons, append_nil.
    cbn. rewrite IH. reflexivity. }
  apply N.eqb_neq in E34, E92.
  destruct ((32 <=? cp) && (cp <=? 126))%N eqn:Eprint.
  { apply andb_prop in Eprint as [Elo Ehi].
    apply N.leb_le in Elo, Ehi.
    change (String (ascii_of_N cp) "" +:+ tail) with (String (ascii_of_N cp) tail).
    cbn [json.scanstring].
    change json.quote with (ascii_of_N 34).
    change json.backslash with (ascii_of_N 92).
    rewrite !ascii_eqb_of_N by lia.
    rewrite N_ascii_embedding by lia.
    replace (cp <? 32)%N with false by (symmetry; apply N.ltb_ge; lia).
    rewrite IH. cbn. unfold json.utf8_encode1.
    replace (cp <? 128)%N with true by (symmetry; apply N.ltb_lt; lia).
    reflexivity. }
  destruct (cp <? 65536)%N eqn:Ebmp.
  { apply N.ltb_lt in Ebmp.
    destruct (unhex4_hex4 cp tail Ebmp) as (h1 & h2 & h3 & h4 & Hhex & Hval).
    change (String json.backslash (String "u" (json.hex4 cp)) +:+ tail)
      with (String json.backslash (String "u" (json.hex4 cp +:+ tail))).
    rewrite Hhex. cbn [json.scanstring].
    change (Ascii.eqb json.backslash json.quote) with false.
    change (Ascii.eqb json.backslash json.backslash) with true.
    change (Ascii.eqb "u" "u") with true. cbv iota.
    rewrite Hval.
    assert (Hhi : json.is_high_surrogate cp = false).
    { unfold json.is_high_surrogate. apply andb_false_iff.
      destruct (cp <? 55296)%N eqn:E; [left; apply N.leb_gt; now apply N.ltb_lt|].
      right. apply N.leb_gt. cbn in Hcp. apply andb_prop in Hcp as [Hcp _].
      apply N.ltb_lt in Hcp. lia. }
    assert (Hlo : json.is_low_surrogate cp = false).
    { unfold json.is_low_surrogate. apply andb_false_iff.
      destruct (cp <? 55296)%N eqn:E; [left; apply N.leb_gt; apply N.ltb_lt in E; lia|].
      right. apply N.leb_gt. cbn in Hcp. apply andb_prop in Hcp as [Hcp _].
      apply N.ltb_lt in Hcp. lia. }
    rewrite Hhi, Hlo, IH. reflexivity. }
  apply N.ltb_ge in Ebmp.
  assert (Hmax : (cp < 1114112)%N).
  { replace (cp <? 55296)%N with false in Hcp by (symmetry; apply N.ltb_ge; lia).
    cbn in Hcp. apply andb_prop in Hcp as [_ Hcp]. now apply N.ltb_lt. }
  set (v := (cp - 65536)%N).
  set (hi := (55296 + v / 1024)%N).
  set (lo := (56320 + v mod 1024)%N).
  assert (Hhi_lt : (hi < 65536)%N) by (unfold hi, v; euclid).
  assert (Hlo_lt : (lo < 65536)%N) by (unfold lo, v; euclid).
  cbv zeta. fold v. fold hi. fold lo.
  rewrite append_assoc.
  destruct (unhex4_hex4 lo tail Hlo_lt) as (l1 & l2 & l3 & l4 & Hlhex & Hlval).
  change (String json.backslash (String "u" (json.hex4 lo)) +:+ tail)
    with (String json.backslash (String "u" (json.hex4 lo +:+ tail))).
  rewrite Hlhex.
  destruct (unhex4_hex4 hi
              (String json.backslash (String "u"
                 (String l1 (String l2 (String l3 (String l4 tail)))))) Hhi_lt)
    as (h1 & h2 & h3 & h4 & Hhhex & Hhval).
  change (String json.backslash (String "u" (json.hex4 hi)) +:+ ?t)
    with (String json.backslash (String "u" (json.hex4 hi +:+ t))).
  rewrite Hhhex. cbn [json.scanstring].
  change (Ascii.eqb json.backslash json.quote) with false.
  change (Ascii.eqb json.backslash json.backslash) with true.
  change (Ascii.eqb "u" "u") with true. cbv iota.
  rewrite Hhval.
  replace (json.is_high_surrogate hi) with true
    by (symmetry; unfold json.is_high_surrogate; apply andb_true_intro;
        split; apply N.leb_le; unfold hi, v; euclid).
  cbn [andb]. rewrite Hlval.
  replace (json.is_low_surrogate lo) with true
    by (symmetry; unfold json.is_low_surrogate; apply andb_true_intro;
        split; apply N.leb_le; unfold lo, v; euclid).
  rewrite IH. cbn.
  replace (65536 + (hi - 55296) * 1024 + (lo - 56320))%N with cp
    by (unfold hi, lo, v; euclid).
  reflexivity.
Qed.

(** A text the encoder accepts is read back as it was. *)
Lemma scanstring_encode (s quoted rest : string) :
  json.encode_basestring_ascii s = Return quoted ->
  exists body,
    quoted +:+ rest = String json.quote body /\
    json.scanstring body = Return (s, rest) /\
    (String.length body < String.length quoted + String.length rest)%nat.
Proof.
  unfold json.encode_basestring_ascii.
  destruct (json.utf8_decode s) as [cps|] eqn:Hd; [|discriminate].
  intros [= <-].
  destruct (utf8_decode_sound s cps Hd) as [He Hv].
  exists (json.escape_all cps +:+ String json.quote rest). split; [|split].
  - change (String json.quote (json.escape_all cps +:+ String json.quote "") +:+ rest)
      with (String json.quote ((json.escape_all cps +:+ String json.quote "") +:+ rest)).
    now rewrite append_assoc.
  - rewrite scanstring_escape_all by exact Hv. now rewrite He.
  - cbn [String.length]. rewrite !length_append. cbn [String.length]. lia.
Qed.

(** ** Numbers *)

Lemma ascii_eqb_by_code (c x : ascii) :
  N_of_ascii c <> N_of_ascii x -> Ascii.eqb c x = false.
Proof. intros H. apply Ascii.eqb_neq. congruence. Qed.

Lemma delimits_head (c : ascii) (r : string) :
  json.delimits (String c r) = true ->
  json.is_digit c = false /\ Ascii.eqb c "." = false /\
  Ascii.eqb c "e" = false /\ Ascii.eqb c "E" = false /\
  Ascii.eqb c "+" || Ascii.eqb c "-" = false.
Proof.
  unfold json.delimits. intros H. apply negb_true_iff in H.
  repeat (apply orb_false_elim in H as [H ?]).
  repeat split; try assumption. apply orb_false_intro; assumption.
Qed.

Lemma span_digits_extend (s rest digits after : string) :
  json.delimits rest = true ->
  json.span_digits s = (digits, after) ->
  json.span_digits (s +:+ rest) = (digits, after +:+ rest).
Proof.
  intros Hrest. revert digits after.
  induction s as [|c s IH]; intros digits after.
  - cbn. intros [= <- <-]. rewrite !append_nil.
    destruct rest as [|c r]; [reflexivity|].
    destruct (delimits_head c r Hrest) as (Hd & _).
    cbn. now rewrite Hd.
  - rewrite append_cons. cbn [json.span_digits].
    destruct (json.is_digit c).
    + destruct (json.span_digits s) as [ds a] eqn:Hs.
      intros [= <- <-]. now rewrite (IH ds a eq_refl).
    + intros [= <- <-]. reflexivity.
Qed.

Lemma match_integer_extend (s rest integer after : string) :
  json.delimits rest = true ->
  json.match_integer s = Some (integer, after) ->
  json.match_integer (s +:+ rest) = Some (integer, after +:+ rest).
Proof.
  intros Hrest. unfold json.match_integer.
  assert (Hbody : forall sign s1,
    match s1 with
    | "" => None
    | String c r =>
        if negb (json.is_digit c) then None
        else if Ascii.eqb c "0" then Some (sign +:+ "0", r)
        else let '(digits, after) := json.span_digits r in
             Some (sign +:+ String c digits, after)
    end = Some (integer, after) ->
    match s1 +:+ rest with
    | "" => None
    | String c r =>
        if negb (json.is_digit c) then None
        else if Ascii.eqb c "0" then Some (sign +:+ "0", r)
        else let '(digits, after) := json.span_digits r in
             Some (sign +:+ String c digits, after)
    end = Some (integer, after +:+ rest)).
  { intros sign [|c r]; [discriminate|]. rewrite append_cons.
    destruct (negb (json.is_digit c)); [discriminate|].
    destruct (Ascii.eqb c "0").
    - intros [= <- <-]. reflexivity.
    - destruct (json.span_digits r) as [ds a] eqn:Hs.
      intros [= <- <-]. now rewrite (span_digits_extend r rest ds a Hrest Hs). }
  destruct s as [|c r].
  - discriminate.
  - rewrite append_cons. destruct (Ascii.eqb c "-").
    + apply (Hbody "-" r).
    + apply (Hbody "" (String c r)).
Qed.

Lemma match_frac_extend (s rest frac after : string) :
  json.delimits rest = true ->
  json.match_frac s = (frac, after) ->
  json.match_frac (s +:+ rest) = (frac, after +:+ rest).
Proof.
  intros Hrest. unfold json.match_frac.
  destruct s as [|d r].
  - intros [= <- <-]. rewrite !append_nil.
    destruct rest as [|c r]; [reflexivity|].
    destruct (delimits_head c r Hrest) as (_ & Hp & _). now rewrite Hp.
  - rewrite append_cons. destruct (Ascii.eqb d ".").
    + destruct (json.span_digits r) as [ds a] eqn:Hs.
      rewrite (span_digits_extend r rest ds a Hrest Hs).
      destruct ds; intros [= <- <-]; reflexivity.
    + intros [= <- <-]. reflexivity.
Qed.

Lemma match_exp_extend (s rest exp after : string) :
  json.delimits rest = true ->
  json.match_exp s = (exp, after) ->
  json.match_exp (s +:+ rest) = (exp, after +:+ rest).
Proof.
  intros Hrest. unfold json.match_exp.
  destruct s as [|e r].
  - intros [= <- <-]. rewrite !append_nil.
    destruct rest as [|c r]; [reflexivity|].
    destruct (delimits_head c r Hrest) as (_ & _ & He & HE & _). now rewrite He, HE.
  - rewrite append_cons. destruct (Ascii.eqb e "e" || Ascii.eqb e "E").
    + destruct r as [|g r'].
      * rewrite append_nil. cbn [json.span_digits].
        intros [= <- <-].
        destruct rest as [|c r0]; [reflexivity|].
        destruct (delimits_head c r0 Hrest) as (Hd & _ & _ & _ & Hsign).
        rewrite Hsign.
        cbn [json.span_digits]. rewrite Hd. reflexivity.
      * rewrite append_cons. destruct (Ascii.eqb g "+" || Ascii.eqb g "-").
        -- destruct (json.span_digits r') as [ds a] eqn:Hs.
           rewrite (span_digits_extend r' rest ds a Hrest Hs).
           destruct ds; intros [= <- <-]; reflexivity.
        -- rewrite <- append_cons.
           destruct (json.span_digits (String g r')) as [ds a] eqn:Hs.
           rewrite (span_digits_extend (String g r') rest ds a Hrest Hs).
           destruct ds; intros [= <- <-]; reflexivity.
    + intros [= <- <-]. reflexivity.
Qed.

(** A number is matched alike with a delimiter after it. *)
Lemma match_number_extend (s rest integer frac exp after : string) :
  json.delimits rest = true ->
  json.match_number s = Some (integer, frac, exp, after) ->
  json.match_number (s +:+ rest) = Some (integer, frac, exp, after +:+ rest).
Proof.
  intros Hrest. unfold json.match_number.
  destruct (json.match_integer s) as [[i a]|] eqn:Hi; [|discriminate].
  rewrite (match_integer_extend s rest i a Hrest Hi).
  destruct (json.match_frac a) as [f a'] eqn:Hf.
  rewrite (match_frac_extend a rest f a' Hrest Hf).
  destruct (json.match_exp a') as [e a''] eqn:He.
  rewrite (match_exp_extend a' rest e a'' Hrest He).
  now intros [= <- <- <- <-].
Qed.

(** A number begins with a minus sign or a digit. *)
Lemma match_number_head (s : string) (m : string * string * string * string) :
  json.match_number s = Some m ->
  exists c r, s = String c r /\ (c = "-"%char \/ json.is_digit c = true).
Proof.
  unfold json.match_number, json.match_integer.
  destruct s as [|c r]; [discriminate|].
  intros H. exists c, r. split; [reflexivity|].
  destruct (Ascii.eqb c "-") eqn:E; [left; now apply Ascii.eqb_eq|].
  right. destruct (json.is_digit c); [reflexivity|discriminate].
Qed.

Lemma span_digits_uint (u : Decimal.uint) :
  json.span_digits (NilEmpty.string_of_uint u) = (NilEmpty.string_of_uint u, "").
Proof.
  induction u; cbn [NilEmpty.string_of_uint json.span_digits];
    [reflexivity | ..]; cbn [json.is_digit]; rewrite IHu; reflexivity.
Qed.

Lemma to_uint_normal (p : positive) :
  Pos.to_uint p <> Decimal.Nil /\ forall u, Pos.to_uint p <> Decimal.D0 u.
Proof.
  split; [apply DecimalPos.Unsigned.to_uint_nonnil|].
  intros u Hu.
  assert (Hnorm : Decimal.unorm (Pos.to_uint p) = Pos.to_uint p).
  { change (Pos.to_uint p) with (N.to_uint (N.pos p)).
    rewrite <- DecimalN.Unsigned.to_of.
    now rewrite DecimalN.Unsigned.of_to. }
  rewrite Hu in Hnorm. unfold Decimal.unorm in Hnorm.
  destruct (Decimal.nzhead (Decimal.D0 u)) eqn:Hz;
    try (apply (DecimalFacts.nzhead_nonzero (Decimal.D0 u) u); congruence).
  injection Hnorm as <-.
  apply (DecimalPos.Unsigned.to_uint_nonzero p). exact Hu.
Qed.

Lemma match_number_uint (sign : string) (u : Decimal.uint) :
  sign = "" \/ sign = "-" ->
  u <> Decimal.Nil -> (forall u', u <> Decimal.D0 u') ->
  json.match_number (sign +:+ NilEmpty.string_of_uint u) =
  Some (sign +:+ NilEmpty.string_of_uint u, "", "", "").
Proof.
  intros Hsign Hnil Hzero.
  destruct u as [|u|u|u|u|u|u|u|u|u|u];
    [now destruct Hnil | now destruct (Hzero u) | ..];
    destruct Hsign as [-> | ->];
    unfold json.match_number, json.match_integer;
    cbn [NilEmpty.string_of_uint];
    rewrite ?append_cons, ?append_nil;
    cbn -[json.span_digits NilEmpty.string_of_uint String.append];
    rewrite span_digits_uint; reflexivity.
Qed.

Lemma string_of_uint_nonnil (u : Decimal.uint) :
  u <> Decimal.Nil -> NilZero.string_of_uint u = NilEmpty.string_of_uint u.
Proof. intros H. destruct u; [now destruct H | reflexivity ..]. Qed.

(** The text of an integer is matched whole, as an integer. *)
Lemma match_number_int_repr (n : Z) :
  json.match_number (json.int_repr n) = Some (json.int_repr n, "", "", "").
Proof.
  unfold json.int_repr. destruct n as [|p|p]; [reflexivity | |];
    cbn [Z.to_int NilZero.string_of_int];
    destruct (to_uint_normal p) as [Hnil Hzero];
    rewrite (string_of_uint_nonnil _ Hnil).
  - apply (match_number_uint "" (Pos.to_uint p)); auto.
  - apply (match_number_uint "-" (Pos.to_uint p)); auto.
Qed.

Lemma int_of_text_repr (n : Z) : json.int_of_text (json.int_repr n) = n.
Proof.
  unfold json.int_of_text, json.int_repr.
  rewrite NilZero.isi.
  - apply DecimalZ.of_to.
  - destruct n as [|p|p]; cbn; try discriminate.
    intros [= H]. now apply (DecimalPos.Unsigned.to_uint_nonnil p).
  - destruct n as [|p|p]; cbn; try discriminate.
    intros [= H]. now apply (DecimalPos.Unsigned.to_uint_nonnil p).
Qed.

Section decoding.
Variable float_repr : string -> string.

(** What [scan_once] makes of a number with a delimiter after it. *)
Lemma scan_once_number
    (fuel : nat) (r rest integer frac exp : string) :
  json.match_number r = Some (integer, frac, exp, "") ->
  json.delimits rest = true ->
  json.scan_once float_repr (S fuel) (r +:+ rest) =
  match frac, exp with
  | "", "" => Return (Int_ (json.int_of_text integer), rest)
  | _, _ => Return (Float_ (float_repr (integer +:+ frac +:+ exp)), rest)
  end.
Proof.
  intros Hm Hrest.
  pose proof (match_number_extend r rest _ _ _ _ Hrest Hm) as Hext.
  rewrite append_nil in Hext.
  destruct (match_number_head r _ Hm) as (c & r' & -> & Hc).
  rewrite append_cons in *.
  assert (Hne : forall x, (N_of_ascii x < 45 \/ 57 < N_of_ascii x)%N ->
                          Ascii.eqb c x = false).
  { intros x Hx. destruct Hc as [-> | Hd].
    - apply ascii_eqb_by_code. cbn. lia.
    - apply ascii_eqb_by_code. unfold json.is_digit in Hd.
      apply andb_prop in Hd as [Hlo Hhi]. apply N.leb_le in Hlo, Hhi. lia. }
  cbn [json.scan_once].
  rewrite (Hne json.quote) by (cbn; lia).
  rewrite (Hne "{"%char) by (cbn; lia).
  rewrite (Hne "["%char) by (cbn; lia).
  cbn [json.after_word].
  rewrite (Hne "n"%char) by (cbn; lia).
  rewrite (Hne "t"%char) by (cbn; lia).
  rewrite (Hne "f"%char) by (cbn; lia).
  rewrite Hext. reflexivity.
Qed.

End decoding.

(** ** Lists and mappings *)

Lemma dumps_list (items : list object) :
  json.dumps (List_ items) =
  chunks ← json.each json.dumps items;
  Return ("[" +:+ join ", " chunks +:+ "]").
Proof.
  cbn [json.dumps]. f_equal.
  induction items as [|x items IH]; [reflexivity|].
  cbn [json.each]. now rewrite IH.
Qed.

Lemma dumps_dict (items : list (object * object)) :
  json.dumps (Dict items) =
  chunks ← json.each json.dumps_item items;
  Return ("{" +:+ join ", " chunks +:+ "}").
Proof.
  cbn [json.dumps]. f_equal.
  induction items as [|[k v] items IH]; [reflexivity|].
  cbn [json.each json.dumps_item]. rewrite IH.
  destruct (json.key_text k) as [kt|]; [|reflexivity]. cbn.
  destruct (json.encode_basestring_ascii kt) as [ks|]; [|reflexivity]. cbn.
  destruct (json.dumps v) as [c|]; reflexivity.
Qed.

Lemma native_list (float_repr : string -> string) (items : list object) :
  json.native float_repr (List_ items) = forallb (json.native float_repr) items.
Proof.
  cbn [json.native].
  induction items as [|x items IH]; [reflexivity|].
  cbn [forallb]. now rewrite IH.
Qed.

Lemma native_dict (float_repr : string -> string) (items : list (object * object)) :
  json.native float_repr (Dict items) = json.native_items float_repr items.
Proof.
  cbn [json.native].
  induction items as [|[k v] items IH]; [reflexivity|].
  cbn [json.native_items]. now rewrite IH.
Qed.

Lemma each_cons {A B : Type} (f : A -> outcome B) (x : A) (l : list A) (ys : list B) :
  json.each f (x :: l) = Return ys ->
  exists y ys', ys = y :: ys' /\ f x = Return y /\ json.each f l = Return ys'.
Proof.
  cbn [json.each]. destruct (f x) as [y|]; [|discriminate]. cbn.
  destruct (json.each f l) as [ys'|]; [|discriminate]. cbn.
  intros [= <-]. now exists y, ys'.
Qed.

Lemma each_nil_inv {A B : Type} (f : A -> outcome B) (l : list A) :
  json.each f l = Return [] -> l = [].
Proof.
  destruct l as [|x l]; [reflexivity|]. intros H.
  apply each_cons in H as (y & ys & Hys & _). discriminate.
Qed.

(** *** A mapping from its pairs *)

Lemma dict_set_fresh (k : string) (v : object) (d : list (object * object)) :
  json.key_in k d = false -> json.dict_set k v d = (d ++ [(Str k, v)])%list.
Proof.
  induction d as [|[k' v'] d IH]; [reflexivity|].
  cbn [json.key_in existsb json.dict_set app]. intros H.
  apply orb_false_elim in H as [Hk Hd].
  destruct k'; try (now rewrite (IH Hd)).
  rewrite Hk. now rewrite (IH Hd).
Qed.

Lemma key_in_app (k : string) (d d' : list (object * object)) :
  json.key_in k (d ++ d')%list = json.key_in k d || json.key_in k d'.
Proof. unfold json.key_in. apply existsb_app. Qed.

Lemma dict_of_pairs_fresh (float_repr : string -> string)
    (items acc : list (object * object)) :
  json.native_items float_repr items = true ->
  Forall (fun '(k, _) => match k with
                         | Str s => json.key_in s acc = false
                         | _ => False
                         end) items ->
  fold_left (fun d '(k, v) => json.dict_set k v d) (json.pairs_of items) acc =
  (acc ++ items)%list.
Proof.
  revert acc. induction items as [|[k v] items IH]; intros acc Hn Hfresh.
  - cbn. now rewrite app_nil_r.
  - inversion Hfresh as [|? ? Hk Hrest]; subst.
    destruct k as [| | | | s | | | |]; try (now destruct Hk).
    cbn [json.native_items] in Hn.
    apply andb_prop in Hn as [Hn Hitems]. apply andb_prop in Hn as [Hn Hv].
    apply andb_prop in Hn as [_ Hdistinct]. apply negb_true_iff in Hdistinct.
    cbn [json.pairs_of map fold_left].
    rewrite (dict_set_fresh s v acc Hk).
    change (map _ items) with (json.pairs_of items).
    rewrite IH; [now rewrite <- app_assoc| exact Hitems |].
    clear IH Hfresh Hitems.
    induction items as [|[k' v'] items IH']; [constructor|].
    inversion Hrest as [|? ? Hk' Hrest']; subst.
    cbn [json.key_in existsb] in Hdistinct.
    apply orb_false_elim in Hdistinct as [Hne Hd].
    constructor; [|now apply IH'].
    destruct k' as [| | | | s' | | | |]; try exact Hk'.
    rewrite key_in_app, Hk'. cbn.
    rewrite orb_false_r. rewrite String.eqb_sym. exact Hne.
Qed.

(** [dict(pairs)] of the pairs of a mapping with distinct text keys is
    the mapping. *)
Lemma dict_of_pairs_native (float_repr : string -> string)
    (items : list (object * object)) :
  json.native_items float_repr items = true ->
  json.dict_of_pairs (json.pairs_of items) = items.
Proof.
  intros Hn. unfold json.dict_of_pairs.
  rewrite (dict_of_pairs_fresh float_repr items [] Hn); [reflexivity|].
  induction items as [|[k v] items IH]; [constructor|].
  cbn [json.native_items] in Hn.
  apply andb_prop in Hn as [Hn Hitems]. apply andb_prop in Hn as [Hn _].
  constructor; [|now apply IH].
  destruct k; try discriminate. reflexivity.
Qed.

(** ** The decoder reads back what the encoder wrote *)

Section round_trip.
Variable float_repr : string -> string.

Lemma float_literal_inv (r : string) :
  json.is_float_literal r = true ->
  json.float_text r = r /\
  exists integer frac exp,
    json.match_number r = Some (integer, frac, exp, "") /\
    (frac <> "" \/ exp <> "") /\ integer +:+ frac +:+ exp = r.
Proof.
  unfold json.is_float_literal. intros H.
  destruct (json.match_number r) as [[[[i f] e] [|? ?]]|] eqn:Hm; try discriminate.
  apply andb_prop in H as [Hfe Hr]. apply String.eqb_eq in Hr.
  split.
  - unfold json.float_text.
    destruct (String.eqb r "nan") eqn:E1;
      [apply String.eqb_eq in E1; rewrite E1 in Hm; vm_compute in Hm; discriminate|].
    destruct (String.eqb r "inf") eqn:E2;
      [apply String.eqb_eq in E2; rewrite E2 in Hm; vm_compute in Hm; discriminate|].
    destruct (String.eqb r "-inf") eqn:E3;
      [apply String.eqb_eq in E3; rewrite E3 in Hm; vm_compute in Hm; discriminate|].
    reflexivity.
  - exists i, f, e. repeat split; [|exact Hr].
    apply negb_true_iff, andb_false_iff in Hfe as [Hf | He].
    + left. intros ->. discriminate.
    + right. intros ->. discriminate.
Qed.

Lemma number_head (c : ascii) :
  c = "-"%char \/ json.is_digit c = true ->
  json.is_whitespace c = false /\ Ascii.eqb c "]" = false.
Proof.
  intros [-> | Hd]; [split; reflexivity|].
  unfold json.is_digit in Hd.
  apply andb_prop in Hd as [Hlo Hhi]. apply N.leb_le in Hlo, Hhi.
  unfold json.is_whitespace.
  rewrite !ascii_eqb_by_code by (cbn; lia). split; reflexivity.
Qed.

(** What the encoder writes begins with no white space and no closing
    bracket. *)
Lemma dumps_head (v : object) (t : string) :
  json.native float_repr v = true -> json.dumps v = Return t ->
  exists c t', t = String c t' /\
    json.is_whitespace c = false /\ Ascii.eqb c "]" = false.
Proof.
  intros Hn Hd. destruct v as [| [|] | n | r | s | items | items | items | cls elems];
    try discriminate Hn.
  - injection Hd as <-. now eexists _, _.
  - injection Hd as <-. now eexists _, _.
  - injection Hd as <-. now eexists _, _.
  - injection Hd as <-.
    destruct (match_number_head _ _ (match_number_int_repr n)) as (c & t' & Ht & Hc).
    exists c, t'. split; [exact Ht | now apply number_head].
  - cbn [json.native] in Hn. apply orb_prop in Hn as [Hinf | Hn].
    { apply orb_prop in Hinf as [E | E]; apply String.eqb_eq in E; subst r;
        injection Hd as <-; now eexists _, _. }
    apply andb_prop in Hn as [Hlit _].
    destruct (float_literal_inv r Hlit) as (Htext & i & f & e & Hm & _).
    cbn [json.dumps] in Hd. rewrite Htext in Hd. injection Hd as <-.
    destruct (match_number_head _ _ Hm) as (c & t' & Ht & Hc).
    exists c, t'. split; [exact Ht | now apply number_head].
  - cbn [json.dumps] in Hd. unfold json.encode_basestring_ascii in Hd.
    destruct (json.utf8_decode s); [|discriminate].
    injection Hd as <-. now eexists _, _.
  - rewrite dumps_list in Hd.
    destruct (json.each json.dumps items); [|discriminate].
    injection Hd as <-. now eexists _, _.
  - rewrite dumps_dict in Hd.
    destruct (json.each json.dumps_item items); [|discriminate].
    injection Hd as <-. now eexists _, _.
Qed.

Lemma skip_whitespace_head (c : ascii) (r : string) :
  json.is_whitespace c = false ->
  json.skip_whitespace (String c r) = String c r.
Proof. intros H. cbn [json.skip_whitespace]. now rewrite H. Qed.

Lemma skip_whitespace_append_head (c : ascii) (t r : string) :
  json.is_whitespace c = false ->
  json.skip_whitespace (String c t +:+ r) = String c t +:+ r.
Proof. intros H. rewrite append_cons. now apply skip_whitespace_head. Qed.

Lemma skip_space (r : string) :
  json.skip_whitespace (String " " r) = json.skip_whitespace r.
Proof. reflexivity. Qed.

Lemma comma_space (r : string) : ", " +:+ r = String "," (String " " r).
Proof. reflexivity. Qed.

Lemma colon_space (r : string) : ": " +:+ r = String ":" (String " " r).
Proof. reflexivity. Qed.

Lemma concat_head (sep : string) (h : ascii) (t : string) (cs : list string) :
  exists r, String.concat sep (String h t :: cs) = String h r.
Proof.
  destruct cs as [|c cs]; [now exists t|].
  eexists. change (String.concat sep (String h t :: c :: cs))
    with (String h t +:+ sep +:+ String.concat sep (c :: cs)).
  now rewrite append_cons.
Qed.

(** What the encoder writes for an item of a mapping begins with the
    quote of its key. *)
Lemma dumps_item_head (item : object * object) (c : string) :
  json.dumps_item item = Return c -> exists t, c = String json.quote t.
Proof.
  destruct item as [k v]. cbn [json.dumps_item]. intros H.
  destruct (json.key_text k) as [kt|]; [|discriminate].
  cbn [mbind outcome_bind] in H. unfold json.encode_basestring_ascii in H.
  destruct (json.utf8_decode kt); [|discriminate].
  cbn [mbind outcome_bind] in H.
  destruct (json.dumps v); [|discriminate].
  cbn [mbind outcome_bind] in H. injection H as <-.
  rewrite !append_cons. now eexists.
Qed.

Lemma concat_two (sep c c' : string) (cs : list string) :
  String.concat sep (c :: c' :: cs) = c +:+ sep +:+ String.concat sep (c' :: cs).
Proof. reflexivity. Qed.

Lemma reads_back_all (fuel : nat) : json.reads_back float_repr fuel.
Proof.
  induction fuel as [|fuel (IHv & IHa & IHo)].
  { split; [|split]; intros; lia. }
  split; [|split].
  - (* a value *)
    intros v t rest Hn Hd Hlen Hrest.
    destruct v as [| [|] | n | r | s | items | items | items | cls elems];
      try discriminate Hn.
    + injection Hd as <-. reflexivity.
    + injection Hd as <-. reflexivity.
    + injection Hd as <-. reflexivity.
    + injection Hd as <-.
      rewrite (scan_once_number float_repr fuel _ rest _ _ _
                 (match_number_int_repr n) Hrest).
      now rewrite int_of_text_repr.
    + cbn [json.native] in Hn. apply orb_prop in Hn as [Hinf | Hn].
      { apply orb_prop in Hinf as [E | E]; apply String.eqb_eq in E; subst r;
          injection Hd as <-; reflexivity. }
      apply andb_prop in Hn as [Hlit Hrepr].
      apply String.eqb_eq in Hrepr.
      destruct (float_literal_inv r Hlit) as (Htext & i & f & e & Hm & Hfe & Hr).
      cbn [json.dumps] in Hd. rewrite Htext in Hd. injection Hd as <-.
      rewrite (scan_once_number float_repr fuel r rest i f e Hm Hrest).
      rewrite Hr, Hrepr.
      destruct f, e; try reflexivity. destruct Hfe as [H | H]; now destruct H.
    + cbn [json.dumps] in Hd.
      destruct (scanstring_encode s t rest Hd) as (body & Hbody & Hscan & _).
      rewrite Hbody. cbn [json.scan_once].
      change (Ascii.eqb json.quote json.quote) with true. cbv iota.
      now rewrite Hscan.
    + rewrite native_list in Hn. rewrite dumps_list in Hd.
      destruct (json.each json.dumps items) as [chunks|] eqn:Hchunks;
        [|discriminate].
      cbn in Hd. injection Hd as <-.
      rewrite join_concat in *.
      destruct items as [|x items].
      * cbn in Hchunks. injection Hchunks as <-. reflexivity.
      * destruct (each_cons _ _ _ _ Hchunks) as (c & cs & -> & Hx & Hcs).
        cbn [forallb] in Hn. apply andb_prop in Hn as [Hnx Hnitems].
        destruct (dumps_head x c Hnx Hx) as (h & c' & -> & Hws & Hclose).
        rewrite !append_cons, append_nil, append_assoc.
        rewrite !length_append in Hlen.
        cbn [String.length] in Hlen.
        assert (Hhead : exists r, String.concat ", " (String h c' :: cs) = String h r).
        { destruct cs; [now exists c'|]. eexists. rewrite concat_two.
          now rewrite append_cons. }
        destruct Hhead as (r & Hr).
        cbn [json.scan_once].
        change (Ascii.eqb "[" json.quote) with false.
        change (Ascii.eqb "[" "{") with false.
        change (Ascii.eqb "[" "[") with true. cbv iota.
        rewrite append_cons, append_nil.
        assert (Hloop := IHa (x :: items) (String h c' :: cs) rest
                            ltac:(discriminate)
                            ltac:(cbn [forallb]; now rewrite Hnx, Hnitems)
                            Hchunks ltac:(lia)).
        rewrite Hr in *. rewrite append_cons in *.
        rewrite (skip_whitespace_head h _ Hws). rewrite Hclose.
        now rewrite Hloop.
    + rewrite native_dict in Hn. rewrite dumps_dict in Hd.
      destruct (json.each json.dumps_item items) as [chunks|] eqn:Hchunks;
        [|discriminate].
      cbn in Hd. injection Hd as <-.
      rewrite join_concat in *.
      destruct items as [|[k v] items].
      * cbn in Hchunks. injection Hchunks as <-. reflexivity.
      * destruct (each_cons _ _ _ _ Hchunks) as (c & cs & -> & Hx & Hcs).
        assert (Hhead : exists body,
                  String.concat ", " (c :: cs) = String json.quote body).
        { cbn [json.dumps_item] in Hx.
          destruct (json.key_text k) as [kt|]; [|discriminate]. cbn in Hx.
          unfold json.encode_basestring_ascii in Hx.
          destruct (json.utf8_decode kt); [|discriminate]. cbn in Hx.
          destruct (json.dumps v); [|discriminate]. cbn in Hx.
          injection Hx as <-.
          destruct cs; [cbn [String.concat]|rewrite concat_two];
            rewrite !append_cons; now eexists. }
        destruct Hhead as (body & Hbody).
        rewrite !append_cons, append_nil, append_assoc.
        rewrite !length_append in Hlen.
        cbn [String.length] in Hlen.
        cbn [json.scan_once].
        change (Ascii.eqb "{" json.quote) with false.
        change (Ascii.eqb "{" "{") with true. cbv iota.
        rewrite append_cons, append_nil.
        assert (Hloop := IHo ((k, v) :: items) (c :: cs) body rest
                            ltac:(discriminate) Hn Hchunks Hbody).
        rewrite Hbody in *. cbn [String.length] in Hlen.
        rewrite append_cons.
        rewrite (skip_whitespace_head json.quote _ eq_refl).
        change (Ascii.eqb json.quote "}") with false.
        change (Ascii.eqb json.quote json.quote) with true. cbv iota.
        rewrite Hloop by lia. cbn [mbind outcome_bind].
        now rewrite (dict_of_pairs_native float_repr _ Hn).
  - (* the items of a list *)
    intros items chunks rest Hne Hn Hchunks Hlen.
    destruct items as [|x items]; [now destruct Hne|].
    destruct (each_cons _ _ _ _ Hchunks) as (c & cs & -> & Hx & Hcs).
    cbn [forallb] in Hn. apply andb_prop in Hn as [Hnx Hnitems].
    cbn [json.array_loop].
    destruct cs as [|c2 cs].
    + apply each_nil_inv in Hcs. subst items.
      cbn [String.concat] in *.
      rewrite (IHv x c (String "]" rest) Hnx Hx ltac:(lia) eq_refl).
      reflexivity.
    + rewrite concat_two in *. rewrite !length_append in Hlen.
      cbn [String.length] in Hlen.
      rewrite !append_assoc.
      rewrite (IHv x c (", " +:+ String.concat ", " (c2 :: cs) +:+ String "]" rest)
                 Hnx Hx ltac:(lia) eq_refl).
      cbn [mbind outcome_bind]. rewrite comma_space.
      rewrite (skip_whitespace_head "," _ eq_refl).
      change (Ascii.eqb "," "]") with false.
      change (Ascii.eqb "," ",") with true. cbv iota.
      rewrite skip_space.
      destruct items as [|x2 items]; [discriminate Hcs|].
      destruct (each_cons _ _ _ _ Hcs) as (c2' & cs' & [= <- <-] & Hx2 & Hcs').
      cbn [forallb] in Hnitems. apply andb_prop in Hnitems as [Hnx2 Hnrest].
      destruct (dumps_head x2 c2 Hnx2 Hx2) as (h & c2t & -> & Hws & _).
      destruct (concat_head ", " h c2t cs) as (r & Hr).
      assert (Hloop := IHa (x2 :: items) (String h c2t :: cs) rest
                          ltac:(discriminate)
                          ltac:(cbn [forallb]; now rewrite Hnx2, Hnrest)
                          Hcs ltac:(lia)).
      rewrite Hr in *.
      rewrite (skip_whitespace_append_head h _ _ Hws).
      now rewrite Hloop.
  - (* the items of a mapping *)
    intros items chunks body rest Hne Hn Hchunks Hbody Hlen.
    destruct items as [|[k v] items]; [now destruct Hne|].
    destruct (each_cons _ _ _ _ Hchunks) as (c & cs & -> & Hx & Hcs).
    cbn [json.native_items] in Hn.
    apply andb_prop in Hn as [Hn Hnitems]. apply andb_prop in Hn as [Hk Hnv].
    destruct k as [| | | | s | | | |]; try discriminate Hk.
    cbn [json.dumps_item json.key_text] in Hx. cbn [mbind outcome_bind] in Hx.
    destruct (json.encode_basestring_ascii s) as [ks|] eqn:Hks; [|discriminate].
    destruct (json.dumps v) as [cv|] eqn:Hcv; [|discriminate].
    injection Hx as <-.
    destruct (dumps_head v cv Hnv Hcv) as (h & cvt & -> & Hws & _).
    assert (Hl := f_equal String.length Hbody).
    cbn [json.object_loop].
    destruct cs as [|c2 cs].
    + apply each_nil_inv in Hcs. subst items.
      cbn [String.concat] in Hbody, Hl.
      rewrite !length_append in Hl. cbn [String.length] in Hl.
      destruct (scanstring_encode s ks
                  (": " +:+ String h cvt +:+ String "}" rest) Hks)
        as (kbody & Hkbody & Hscan & _).
      assert (E : String json.quote (body +:+ String "}" rest) =
                  String json.quote kbody).
      { rewrite <- Hkbody.
        change (String json.quote (body +:+ String "}" rest))
          with (String json.quote body +:+ String "}" rest).
        rewrite <- Hbody. now rewrite !append_assoc. }
      injection E as ->.
      rewrite Hscan. cbn [mbind outcome_bind]. rewrite colon_space.
      rewrite (skip_whitespace_head ":" _ eq_refl).
      change (negb (Ascii.eqb ":" ":")) with false. cbv iota.
      rewrite skip_space, (skip_whitespace_append_head h _ _ Hws).
      rewrite (IHv v (String h cvt) (String "}" rest) Hnv Hcv
                 ltac:(cbn [String.length]; lia) eq_refl).
      reflexivity.
    + rewrite concat_two in Hbody, Hl.
      destruct items as [|[k2 v2] items]; [discriminate Hcs|].
      destruct (each_cons _ _ _ _ Hcs) as (c2' & cs' & [= <- <-] & Hx2 & Hcs').
      destruct (dumps_item_head _ _ Hx2) as (c2t & ->).
      destruct (concat_head ", " json.quote c2t cs) as (body2 & Hbody2).
      rewrite Hbody2 in Hbody, Hl.
      rewrite !length_append in Hl. cbn [String.length] in Hl.
      destruct (scanstring_encode s ks
                  (": " +:+ String h cvt +:+ ", " +:+
                   String json.quote body2 +:+ String "}" rest) Hks)
        as (kbody & Hkbody & Hscan & _).
      assert (E : String json.quote (body +:+ String "}" rest) =
                  String json.quote kbody).
      { rewrite <- Hkbody.
        change (String json.quote (body +:+ String "}" rest))
          with (String json.quote body +:+ String "}" rest).
        rewrite <- Hbody. now rewrite !append_assoc. }
      injection E as ->.
      rewrite Hscan. cbn [mbind outcome_bind]. rewrite colon_space.
      rewrite (skip_whitespace_head ":" _ eq_refl).
      change (negb (Ascii.eqb ":" ":")) with false. cbv iota.
      rewrite skip_space, (skip_whitespace_append_head h _ _ Hws).
      rewrite (IHv v (String h cvt)
                 (", " +:+ String json.quote body2 +:+ String "}" rest)
                 Hnv Hcv ltac:(cbn [String.length]; lia) eq_refl).
      cbn [mbind outcome_bind]. rewrite comma_space.
      rewrite (skip_whitespace_head "," _ eq_refl).
      change (Ascii.eqb "," "}") with false.
      change (Ascii.eqb "," ",") with true. cbv iota.
      rewrite skip_space, (skip_whitespace_append_head json.quote _ _ eq_refl).
      rewrite append_cons.
      change (Ascii.eqb json.quote json.quote) with true. cbv iota.
      rewrite (IHo ((k2, v2) :: items) (String json.quote c2t :: cs) body2 rest
                  ltac:(discriminate) Hnitems Hcs Hbody2 ltac:(lia)).
      reflexivity.
Qed.

(** [loads(dumps(v))] is [v], for every native value [v]. *)
Lemma loads_dumps (v : object) (t : string) :
  json.native float_repr v = true -> json.dumps v = Return t ->
  json.loads float_repr (text t) = Return v /\
  json.loads float_repr (bytes t) = Return v.
Proof.
  intros Hn Hd.
  assert (H : json.decode float_repr t = Return v).
  { unfold json.decode.
    destruct (dumps_head v t Hn Hd) as (h & t' & Ht & Hws & _).
    destruct (reads_back_all (S (String.length t))) as (Hv & _).
    pose proof (Hv v t "" Hn Hd ltac:(lia) eq_refl) as Hscan.
    rewrite append_empty_r in Hscan.
    rewrite Ht in *. rewrite (skip_whitespace_head h _ Hws).
    rewrite Hscan. reflexivity. }
  split; exact H.
Qed.

(** Induction on a value, through the items of a list and the values
    of a mapping. *)
Lemma object_nested_ind (P : object -> Prop) :
  (forall v, match v with List_ _ | Dict _ => False | _ => True end -> P v) ->
  (forall items, Forall P items -> P (List_ items)) ->
  (forall items, Forall (fun item => P (snd item)) items -> P (Dict items)) ->
  forall v, P v.
Proof.
  intros Hleaf Hlist Hdict. fix IH 1.
  intros [| b | n | r | s | items | items | items | cls e];
    try (apply Hleaf; exact I).
  - apply Hlist. revert items. fix IHitems 1.
    intros [|x items]; constructor; [apply IH | apply IHitems].
  - apply Hdict. revert items. fix IHitems 1.
    intros [|[k x] items]; constructor; [apply IH | apply IHitems].
Qed.

(** The encoder accepts every native value. *)
Lemma dumps_native (v : object) :
  json.native float_repr v = true -> exists t, json.dumps v = Return t.
Proof.
  induction v as [v Hv | items IH | items IH] using object_nested_ind.
  - destruct v as [| [|] | n | r | s | items | items | items | cls e];
      try (now destruct Hv); try discriminate; try (now eexists).
    cbn [json.native json.dumps]. unfold json.encode_basestring_ascii.
    destruct (json.utf8_decode s); [now eexists | discriminate].
  - rewrite native_list, dumps_list. intros Hn.
    assert (H : exists chunks, json.each json.dumps items = Return chunks).
    { induction IH as [|x items Hx _ IHitems]; [now eexists|].
      cbn [forallb] in Hn. apply andb_prop in Hn as [Hnx Hnitems].
      destruct (Hx Hnx) as (c & Hc). destruct (IHitems Hnitems) as (cs & Hcs).
      exists (c :: cs). cbn [json.each]. now rewrite Hc, Hcs. }
    destruct H as (chunks & ->). now eexists.
  - rewrite native_dict, dumps_dict. intros Hn.
    assert (H : exists chunks, json.each json.dumps_item items = Return chunks).
    { induction IH as [|[k x] items Hx _ IHitems]; [now eexists|].
      cbn [json.native_items] in Hn.
      apply andb_prop in Hn as [Hn Hnitems]. apply andb_prop in Hn as [Hk Hnx].
      destruct k as [| | | | s | | | |]; try discriminate Hk.
      apply andb_prop in Hk as [Hs _].
      destruct (Hx Hnx) as (c & Hc). destruct (IHitems Hnitems) as (cs & Hcs).
      cbn [json.each json.dumps_item json.key_text]. cbn [mbind outcome_bind].
      unfold json.encode_basestring_ascii.
      destruct (json.utf8_decode s); [|discriminate].
      cbn [snd] in Hc. rewrite Hc, Hcs. now eexists. }
    destruct H as (chunks & ->). now eexists.
Qed.

End round_trip.

(** ** The round trip through the bridge *)

Section codec_round_trip.
Context {ext : Externals}.
Variable float_repr : string -> string.


End codec_round_trip.


